(** * Wine CSV converter: a shallow embedding of [wine_converter_app.py]

    The development follows the source file top to bottom:
    - the Python builtins the code relies on (character classes, [str]
      methods, the regular expressions, [float] and [int]);
    - [clean_text], [parse_number], [convert_csv_to_json] and
      [create_full_json_structure], statement by statement;
    - the properties of the specification, stated on these definitions.

    A Python [str] is modelled as a [string] whose characters are the code
    points U+0000 to U+00FF; the character classes below are Python's,
    restricted to that range.  Python floats are IEEE binary64 values,
    modelled by [spec_float] with 53 bits of precision. *)

From stdpp Require Import gmap strings list.
From Stdlib Require Import ZArith NArith Ascii String List Bool Lia SpecFloat.
From Stdlib Require Import DecimalString.
From Stdlib Require DecimalPos.
Import ListNotations.

Local Open Scope string_scope.
Local Open Scope bool_scope.

(** ** Characters *)

Module Unicode.

Definition ord (c : ascii) : N := N_of_ascii c.
Definition chr (n : N) : ascii := ascii_of_N n.

Definition in_range (lo hi : N) (c : ascii) : bool :=
  ((lo <=? ord c) && (ord c <=? hi))%N.

(** [str.isspace], which is also the class [\s] of [re] on [str] patterns:
    TAB LF VT FF CR, FS GS RS US, SPACE, NEL and NBSP. *)
Definition isspace (c : ascii) : bool :=
  in_range 9 13 c || in_range 28 32 c || in_range 133 133 c || in_range 160 160 c.

(** The class [\d] of [re]: below U+0100 the decimal digits are 0 to 9. *)
Definition isdigit (c : ascii) : bool := in_range 48 57 c.

(** The class [\w] of [re]: alphanumeric characters and the underscore. *)
Definition isword (c : ascii) : bool :=
  in_range 48 57 c || in_range 65 90 c || in_range 95 95 c || in_range 97 122 c
  || in_range 170 170 c || in_range 178 179 c || in_range 181 181 c
  || in_range 185 186 c || in_range 188 190 c || in_range 192 214 c
  || in_range 216 246 c || in_range 248 255 c.

(** [str.lower] on one character: A-Z, and the accented capitals
    U+00C0-U+00D6 and U+00D8-U+00DE, move 32 code points up. *)
Definition lower (c : ascii) : ascii :=
  if in_range 65 90 c || in_range 192 214 c || in_range 216 222 c
  then chr (ord c + 32) else c.

Definition LF : ascii := chr 10.
Definition CR : ascii := chr 13.
Definition SPACE : ascii := chr 32.
Definition QUOTE : ascii := chr 34.

Definition same (c d : ascii) : bool := Ascii.eqb c d.

End Unicode.

(** ** Methods of [str] *)

Module PyStr.
Import Unicode.

Definition is_empty (s : string) : bool :=
  match s with EmptyString => true | String _ _ => false end.

Fixpoint lower (s : string) : string :=
  match s with
  | EmptyString => EmptyString
  | String c s' => String (Unicode.lower c) (lower s')
  end.

Fixpoint lstrip (s : string) : string :=
  match s with
  | EmptyString => EmptyString
  | String c s' => if isspace c then lstrip s' else s
  end.

(** A character is dropped from the right end when it is a space and
    everything after it has been dropped. *)
Fixpoint rstrip (s : string) : string :=
  match s with
  | EmptyString => EmptyString
  | String c s' =>
      let r := rstrip s' in
      if isspace c && is_empty r then EmptyString else String c r
  end.

Definition strip (s : string) : string := rstrip (lstrip s).

Definition startswith (s p : string) : bool := String.prefix p s.

Fixpoint endswith (s p : string) : bool :=
  String.eqb s p
  || match s with
     | EmptyString => false
     | String _ s' => endswith s' p
     end.

(** [s[:-1]] *)
Fixpoint drop_last (s : string) : string :=
  match s with
  | EmptyString => EmptyString
  | String c s' => if is_empty s' then EmptyString else String c (drop_last s')
  end.

(** [s[1:-1]] *)
Definition slice_1_m1 (s : string) : string :=
  match s with
  | EmptyString => EmptyString
  | String _ s' => drop_last s'
  end.

(** [s.split(sep)] for a one-character separator: never an empty list. *)
Fixpoint split (sep : ascii) (s : string) : list string :=
  match s with
  | EmptyString => [EmptyString]
  | String c s' =>
      if same c sep then EmptyString :: split sep s'
      else match split sep s' with
           | l :: ls => String c l :: ls
           | [] => [String c EmptyString]
           end
  end.

(** [sep.join(ls)] *)
Definition join (sep : string) (ls : list string) : string := String.concat sep ls.

End PyStr.

(** ** The substitutions done with [re.sub] *)

Module Re.
Import Unicode.

(** [re.sub(r'\s+', ' ', s)]: every maximal run of space characters becomes
    one SPACE.  [in_run] tells that the previous character was a space. *)
Fixpoint sub_spaces_from (in_run : bool) (s : string) : string :=
  match s with
  | EmptyString => EmptyString
  | String c s' =>
      if isspace c
      then if in_run then sub_spaces_from true s'
           else String SPACE (sub_spaces_from true s')
      else String c (sub_spaces_from false s')
  end.

Definition sub_spaces (s : string) : string := sub_spaces_from false s.

(** [re.sub(r'\r\n|\r', '\n', s)]: CR LF, or a CR alone, becomes LF. *)
Fixpoint sub_newlines (s : string) : string :=
  match s with
  | EmptyString => EmptyString
  | String c s' =>
      if same c CR
      then String LF
             match s' with
             | String d s'' => if same d LF then sub_newlines s'' else sub_newlines s'
             | EmptyString => EmptyString
             end
      else String c (sub_newlines s')
  end.

(** [\b] between two neighbouring characters; [None] stands for an end
    of the string. *)
Definition word_char (c : option ascii) : bool :=
  match c with
  | Some c => isword c
  | None => false
  end.

Definition boundary (prev next : option ascii) : bool :=
  xorb (word_char prev) (word_char next).

Definition head (s : string) : option ascii :=
  match s with
  | String c _ => Some c
  | EmptyString => None
  end.

(** [\b(\d{4})\b] matched where [s] starts, [prev] being the character
    before it: group 1 of the match. *)
Definition match_year (prev : option ascii) (s : string) : option string :=
  match s with
  | String a (String b (String c (String d rest))) =>
      if boundary prev (Some a)
         && isdigit a && isdigit b && isdigit c && isdigit d
         && boundary (Some d) (head rest)
      then Some (String a (String b (String c (String d EmptyString))))
      else None
  | _ => None
  end.

Fixpoint search_year_from (prev : option ascii) (s : string) : option string :=
  match match_year prev s with
  | Some g => Some g
  | None =>
      match s with
      | EmptyString => None
      | String c s' => search_year_from (Some c) s'
      end
  end.

(** [re.search(r'\b(\d{4})\b', s)]: group 1 of the leftmost match. *)
Definition search_year (s : string) : option string := search_year_from None s.

(** The class [[\d.]]. *)
Definition isnumchar (c : ascii) : bool := isdigit c || same c ".".

(** The longest prefix made of characters of the class. *)
Fixpoint greedy (p : ascii -> bool) (s : string) : string :=
  match s with
  | EmptyString => EmptyString
  | String c s' => if p c then String c (greedy p s') else EmptyString
  end.

(** [re.search(r'([\d.]+)%?', s)]: group 1 of the leftmost match, which
    starts at the first digit or point and takes all that follow. *)
Fixpoint search_percent (s : string) : option string :=
  match s with
  | EmptyString => None
  | String c s' => if isnumchar c then Some (greedy isnumchar s) else search_percent s'
  end.

End Re.

(** ** Table cells *)

(** What pandas hands over as a cell or a column label: a string (object
    columns), an integer (integer columns) or the missing-value marker, the
    float NaN.  The code observes a cell through its truth value and through
    [str] only.  Finite float cells, whose [str] is the shortest decimal
    that reads back as the float, are not part of the model. *)
Inductive cell : Type :=
  | CStr (s : string)
  | CInt (z : Z)
  | CNaN.

Definition cell_truthy (v : cell) : bool :=
  match v with
  | CStr s => negb (PyStr.is_empty s)
  | CInt z => negb (Z.eqb z 0)
  | CNaN => true
  end.

Definition cell_str (v : cell) : string :=
  match v with
  | CStr s => s
  | CInt z => NilZero.string_of_int (Z.to_int z)
  | CNaN => "nan"
  end.

(** ** [clean_text] *)

(** The test that opens both [clean_text] and [parse_number]:
    [not text or str(text).strip() == '' or str(text).lower() == 'nan']. *)
Definition is_blank_or_nan (text : cell) : bool :=
  negb (cell_truthy text)
  || String.eqb (PyStr.strip (cell_str text)) EmptyString
  || String.eqb (PyStr.lower (cell_str text)) "nan".

(** [text.startswith('"') and text.endswith('"')] *)
Definition wrapped (text : string) : bool :=
  let q := String Unicode.QUOTE EmptyString in
  PyStr.startswith text q && PyStr.endswith text q.

(** [if ...: text = text[1:-1]] *)
Definition unwrap_quotes (text : string) : string :=
  if wrapped text then PyStr.slice_1_m1 text else text.

(** The branch [if preserve_line_breaks:], down to its [return]. *)
Definition clean_lines (text : string) : string :=
  let text := Re.sub_newlines text in
  let lines := List.map PyStr.strip (PyStr.split Unicode.LF text) in
  let lines := List.filter (fun line => negb (PyStr.is_empty line)) lines in
  PyStr.join (String Unicode.LF EmptyString) lines.

Definition clean_text (text : cell) (preserve_line_breaks : bool) : string :=
  if is_blank_or_nan text then EmptyString
  else
    let text := cell_str text in
    let text := unwrap_quotes text in
    if preserve_line_breaks then clean_lines text
    else Re.sub_spaces (PyStr.strip text).

(** ** Exceptions *)

Inductive exn : Type := ValueError | TypeError | OverflowError | KeyError.

Inductive result (A : Type) : Type :=
  | Ok (a : A)
  | Raise (e : exn).
Arguments Ok {A} a.
Arguments Raise {A} e.

#[export] Instance result_ret : MRet result := @Ok.
#[export] Instance result_bind : MBind result :=
  fun A B (f : A -> result B) (m : result A) =>
    match m with
    | Ok a => f a
    | Raise e => Raise e
    end.

(** [try: body except (ValueError, TypeError): return handler] *)
Definition try_except {A} (body : result A) (handler : A) : result A :=
  match body with
  | Ok a => Ok a
  | Raise ValueError | Raise TypeError => Ok handler
  | Raise e => Raise e
  end.

(** ** [int] and [float] *)

Module PyNum.
Import Unicode.

Definition prec : Z := 53.
Definition emax : Z := 1024.

(** The value of a string of decimal digits. *)
Definition digit_value (c : ascii) : Z := Z.of_N (ord c) - 48.

Fixpoint digits_value_from (acc : Z) (s : string) : Z :=
  match s with
  | EmptyString => acc
  | String c s' => digits_value_from (10 * acc + digit_value c) s'
  end.

Definition digits_value (s : string) : Z := digits_value_from 0 s.

(** [( ["_"] digit )*]: the digits read and what follows them. *)
Fixpoint digits_more (s : string) : string * string :=
  match s with
  | EmptyString => (EmptyString, EmptyString)
  | String c s' =>
      if isdigit c then
        let '(ds, r) := digits_more s' in (String c ds, r)
      else if same c "_" then
        match s' with
        | String d _ => if isdigit d then digits_more s' else (EmptyString, s)
        | EmptyString => (EmptyString, s)
        end
      else (EmptyString, s)
  end.

(** [digitpart ::= digit (["_"] digit)*], or nothing read when the string
    does not start with a digit. *)
Definition digitpart (s : string) : string * string :=
  match s with
  | String c _ => if isdigit c then digits_more s else (EmptyString, s)
  | EmptyString => (EmptyString, s)
  end.

Definition sign (s : string) : bool * string :=
  match s with
  | String c s' =>
      if same c "-" then (true, s')
      else if same c "+" then (false, s')
      else (false, s)
  | EmptyString => (false, s)
  end.

(** The space characters of C, which [int] and [float] strip once the
    argument is brought to ASCII. *)
Definition c_isspace (c : ascii) : bool := in_range 9 13 c || in_range 32 32 c.

Fixpoint c_lstrip (s : string) : string :=
  match s with
  | EmptyString => EmptyString
  | String c s' => if c_isspace c then c_lstrip s' else s
  end.

Fixpoint c_rstrip (s : string) : string :=
  match s with
  | EmptyString => EmptyString
  | String c s' =>
      let r := c_rstrip s' in
      if c_isspace c && PyStr.is_empty r then EmptyString else String c r
  end.

Fixpoint is_ascii (s : string) : bool :=
  match s with
  | EmptyString => true
  | String c s' => in_range 0 127 c && is_ascii s'
  end.

(** Non-ASCII spaces become SPACE; the first other non-ASCII character
    becomes a question mark and ends the string. *)
Fixpoint transform (s : string) : string :=
  match s with
  | EmptyString => EmptyString
  | String c s' =>
      if in_range 0 126 c then String c (transform s')
      else if isspace c then String SPACE (transform s')
      else "?"
  end.

Definition to_ascii (s : string) : string :=
  if is_ascii s then s else transform s.

(** [int(s)] for a string, in base 10. *)
Definition int_of_str (s : string) : result Z :=
  let s := c_rstrip (c_lstrip (to_ascii s)) in
  let '(neg, body) := sign s in
  match digitpart body with
  | (String d ds, EmptyString) =>
      Ok (cond_Zopp neg (digits_value (String d ds)))
  | _ => Raise ValueError
  end.

(** [floatnumber ::= number [exponent]]: the digits before and after the
    point and the exponent, when the whole string is a number. *)
Definition floatnumber (s : string) : option (string * string * Z) :=
  let '(ip, r1) := digitpart s in
  let '(fp, r2) :=
    match r1 with
    | String c r => if same c "." then digitpart r else (EmptyString, r1)
    | EmptyString => (EmptyString, r1)
    end in
  if PyStr.is_empty ip && PyStr.is_empty fp then None
  else
    match r2 with
    | EmptyString => Some (ip, fp, 0%Z)
    | String c r3 =>
        if same c "e" || same c "E" then
          let '(eneg, r4) := sign r3 in
          match digitpart r4 with
          | (String d ds, EmptyString) =>
              Some (ip, fp, cond_Zopp eneg (digits_value (String d ds)))
          | _ => None
          end
        else None
    end.

(** The binary64 number nearest to [m * 10 ^ e], ties to even. *)
Definition of_decimal (neg : bool) (m : Z) (e : Z) : spec_float :=
  match m with
  | Zpos p =>
      if (0 <=? e)%Z
      then binary_round prec emax neg (Z.to_pos (Zpos p * 10 ^ e)) 0
      else SFdiv prec emax (S754_finite neg p 0)
                           (S754_finite false (Z.to_pos (10 ^ (- e))) 0)
  | _ => S754_zero neg
  end.

(** [float(s)] for a string. *)
Definition float_of_str (s : string) : result spec_float :=
  let s := c_rstrip (c_lstrip (to_ascii s)) in
  let '(neg, body) := sign s in
  let word := PyStr.lower body in
  if String.eqb word "inf" || String.eqb word "infinity" then Ok (S754_infinity neg)
  else if String.eqb word "nan" then Ok S754_nan
  else
    match floatnumber body with
    | Some (ip, fp, e) =>
        Ok (of_decimal neg (digits_value (ip ++ fp)) (e - Z.of_nat (String.length fp)))
    | None => Raise ValueError
    end.

(** [int(f)] for a float: truncation toward zero. *)
Definition int_of_float (f : spec_float) : result Z :=
  match f with
  | S754_zero _ => Ok 0%Z
  | S754_finite s m e => Ok (cond_Zopp s (Z.shiftl (Zpos m) e))
  | S754_infinity _ => Raise OverflowError
  | S754_nan => Raise ValueError
  end.

Definition float_of_Z (z : Z) : spec_float := binary_normalize prec emax z 0 false.

Definition truediv (x y : spec_float) : spec_float := SFdiv prec emax x y.

End PyNum.

(** ** Python values built by the converter *)

#[warnings="-register-all"]
Inductive pyval : Type :=
  | PNone
  | PInt (z : Z)
  | PFloat (f : spec_float)
  | PStr (s : string)
  | PList (l : list pyval)
  | PDict (d : list (string * pyval)).

(** The truth value of an object, as [if], [or] and [not] see it. *)
Definition truthy (v : pyval) : bool :=
  match v with
  | PNone => false
  | PInt z => negb (Z.eqb z 0)
  | PFloat (S754_zero _) => false
  | PFloat _ => true
  | PStr s => negb (PyStr.is_empty s)
  | PList l => match l with [] => false | _ => true end
  | PDict d => match d with [] => false | _ => true end
  end.

(** A dict literal keeps its keys in the order written. *)
Fixpoint getitem (d : list (string * pyval)) (key : string) : result pyval :=
  match d with
  | [] => Raise KeyError
  | (k, v) :: d' => if String.eqb k key then Ok v else getitem d' key
  end.

(** ** [parse_number] *)

Definition parse_number (text : cell) (is_float : bool) : result pyval :=
  if is_blank_or_nan text then Ok PNone
  else
    let cleaned := clean_text (CStr (cell_str text)) false in
    try_except
      (if negb is_float then
         match Re.search_year cleaned with
         | Some group1 => z ← PyNum.int_of_str group1; Ok (PInt z)
         | None =>
             f ← PyNum.float_of_str cleaned;
             z ← PyNum.int_of_float f;
             Ok (PInt z)
         end
       else
         match Re.search_percent cleaned with
         | Some group1 =>
             f ← PyNum.float_of_str group1;
             Ok (PFloat (PyNum.truediv f (PyNum.float_of_Z 100)))
         | None =>
             f ← PyNum.float_of_str cleaned;
             Ok (PFloat (PyNum.truediv f (PyNum.float_of_Z 100)))
         end)
      PNone.

(** ** [convert_csv_to_json] *)

(** A pandas DataFrame: the column labels and the rows, top to bottom, each
    row as [iterrows] yields it.  pandas gives every row one cell per column;
    the conversion tests the length of the row all the same, and so nothing
    below relies on it. *)
Record DataFrame : Type := {
  columns : list cell;
  rows : list (list cell)
}.

(** The body of the loop over [enumerate(df.columns)]. *)
Definition header_step (header_mapping : gmap string nat) (i : nat) (col : cell)
  : gmap string nat :=
  let col_clean := PyStr.lower (clean_text col false) in
  if String.eqb col_clean "id" then <["id" := i]> header_mapping
  else if String.eqb col_clean "referralid" then <["referralId" := i]> header_mapping
  else if String.eqb col_clean "name" then <["name" := i]> header_mapping
  else if String.eqb col_clean "producer" then <["producer" := i]> header_mapping
  else if String.eqb col_clean "origincountry" then <["originCountry" := i]> header_mapping
  else if String.eqb col_clean "region" then <["region" := i]> header_mapping
  else if String.eqb col_clean "grapetype" then <["grapeType" := i]> header_mapping
  else if String.eqb col_clean "winetype" then <["wineType" := i]> header_mapping
  else if String.eqb col_clean "harvest" then <["harvest" := i]> header_mapping
  else if String.eqb col_clean "alcohollevel" then <["alcoholLevel" := i]> header_mapping
  else if String.eqb col_clean "agingprocess" then <["agingProcess" := i]> header_mapping
  else if String.eqb col_clean "harmonization" then <["harmonization" := i]> header_mapping
  else if String.eqb col_clean "tastedescription" then <["tasteDescription" := i]> header_mapping
  else header_mapping.

Fixpoint header_loop (i : nat) (cols : list cell) (header_mapping : gmap string nat)
  : gmap string nat :=
  match cols with
  | [] => header_mapping
  | col :: cols' => header_loop (S i) cols' (header_step header_mapping i col)
  end.

Definition build_header_mapping (df : DataFrame) : gmap string nat :=
  header_loop 0 (columns df) ∅.

(** [row.iloc[header_mapping.get(key, dflt)] if header_mapping.get(key, dflt) < len(row) else ""] *)
Definition cell_of (header_mapping : gmap string nat) (row : list cell)
    (key : string) (dflt : nat) : cell :=
  let j := default dflt (header_mapping !! key) in
  if (j <? length row)%nat then nth j row (CStr EmptyString) else CStr EmptyString.

(** The dict literal [wine = {...}]: the values are computed in the order
    written, and the first exception leaves the literal. *)
Definition make_wine (hm : gmap string nat) (row : list cell)
  : result (list (string * pyval)) :=
  id ← parse_number (cell_of hm row "id" 0) false;
  referralId ← parse_number (cell_of hm row "referralId" 1) false;
  let name := clean_text (cell_of hm row "name" 2) false in
  let producer := clean_text (cell_of hm row "producer" 3) false in
  let originCountry := clean_text (cell_of hm row "originCountry" 4) false in
  let region := clean_text (cell_of hm row "region" 5) false in
  let grapeType := clean_text (cell_of hm row "grapeType" 6) false in
  let wineType := clean_text (cell_of hm row "wineType" 7) false in
  harvest ← parse_number (cell_of hm row "harvest" 8) false;
  alcoholLevel ← parse_number (cell_of hm row "alcoholLevel" 9) true;
  let agingProcess := clean_text (cell_of hm row "agingProcess" 10) false in
  let harmonization := clean_text (cell_of hm row "harmonization" 11) true in
  let tasteDescription := clean_text (cell_of hm row "tasteDescription" 12) false in
  Ok [ ("id", id);
       ("referralId", referralId);
       ("name", PStr name);
       ("producer", PStr producer);
       ("originCountry", PStr originCountry);
       ("region", PStr region);
       ("grapeType", PStr grapeType);
       ("wineType", PStr wineType);
       ("harvest", harvest);
       ("alcoholLevel", alcoholLevel);
       ("price", PNone);
       ("importedBy", PNone);
       ("agingProcess", PStr agingProcess);
       ("harmonization", PStr harmonization);
       ("tasteDescription", PStr tasteDescription) ].

(** [if wine['name'] or wine['id']]: the right operand is looked up only
    when the left one is false. *)
Definition has_name_or_id (wine : list (string * pyval)) : result bool :=
  name ← getitem wine "name";
  if truthy name then Ok true
  else id ← getitem wine "id"; Ok (truthy id).

(** The body of the loop over [df.iterrows()]; [wines] is the list being
    filled by [wines.append(wine)]. *)
Definition row_step (hm : gmap string nat) (wines : list pyval) (row : list cell)
  : result (list pyval) :=
  wine ← make_wine hm row;
  keep ← has_name_or_id wine;
  if (keep : bool) then Ok (wines ++ [PDict wine])%list else Ok wines.

Fixpoint row_loop (hm : gmap string nat) (rows : list (list cell)) (wines : list pyval)
  : result (list pyval) :=
  match rows with
  | [] => Ok wines
  | row :: rows' => wines' ← row_step hm wines row; row_loop hm rows' wines'
  end.

Definition convert_csv_to_json (df : DataFrame) : result (list pyval) :=
  let wines := [] in
  let header_mapping := build_header_mapping df in
  row_loop header_mapping (rows df) wines.

(** ** [create_full_json_structure] *)

Definition steaks_data : pyval :=
  PList [
      PDict [ ("id", PInt 2009);
              ("name", PStr "Short Rib Angus");
              ("producer", PStr "Puro Taglio");
              ("cutType", PStr "Short Rib");
              ("originCountry", PStr "Brasil");
              ("breed", PStr "Angus");
              ("tasteDescription", PStr EmptyString);
              ("price", PInt 0);
              ("referralId", PInt 2009) ];
      PDict [ ("id", PInt 2026);
              ("name", PStr "Prime Rib Angus");
              ("producer", PStr "Puro Taglio");
              ("cutType", PStr "Prime Rib");
              ("originCountry", PStr "Brasil");
              ("breed", PStr "Angus");
              ("tasteDescription", PStr EmptyString);
              ("price", PInt 0);
              ("referralId", PInt 2026) ];
      PDict [ ("id", PInt 2013);
              ("name", PStr "T-Bone Steak Angus");
              ("producer", PStr "Puro Taglio");
              ("cutType", PStr "T-Bone Steak");
              ("originCountry", PStr "Brasil");
              ("breed", PStr "Angus");
              ("tasteDescription", PStr EmptyString);
              ("price", PInt 0);
              ("referralId", PInt 2013) ];
      PDict [ ("id", PInt 2004);
              ("name", PStr "Flat Iron Angus");
              ("producer", PStr "Puro Taglio");
              ("cutType", PStr "Flat Iron");
              ("originCountry", PStr "Brasil");
              ("breed", PStr "Angus");
              ("tasteDescription", PStr EmptyString);
              ("price", PInt 0);
              ("referralId", PInt 2004) ] ].

Definition sommelier_suggestions : pyval :=
  PList [
      PDict [ ("name", PStr "Kit Executivo - 10% OFF");
              ("wineId", PInt 3760245210066);
              ("steakId", PInt 2009);
              ("id", PStr "executivo") ];
      PDict [ ("name", PStr "Kit Elegante - 15% OFF");
              ("wineId", PInt 7798145140141);
              ("steakId", PInt 2026);
              ("id", PStr "elegante") ];
      PDict [ ("name", PStr "Kit Premium - 15% OFF");
              ("wineId", PInt 8052080990001);
              ("steakId", PInt 2013);
              ("id", PStr "premium") ] ].

Definition create_full_json_structure (wines_data : list pyval) : pyval :=
  let complete_data :=
    PDict [ ("wine", PList wines_data);
            ("steak", steaks_data);
            ("sommelierSuggestions", sommelier_suggestions) ] in
  complete_data.

(** ** [main]: what is computed from the table *)

(** [main] is the page of the application: it reads the upload, shows the
    controls and hands the values below to them.  The values themselves are
    plain expressions over the table, modelled here; the page is not. *)

(** [v[key]] *)
Definition subscript (v : pyval) (key : string) : result pyval :=
  match v with
  | PDict d => getitem d key
  | _ => Raise TypeError
  end.

(** [len(v)] *)
Definition len (v : pyval) : result Z :=
  match v with
  | PStr s => Ok (Z.of_nat (String.length s))
  | PList l => Ok (Z.of_nat (length l))
  | PDict d => Ok (Z.of_nat (length d))
  | _ => Raise TypeError
  end.

(** [v[:2]] *)
Definition slice_to_2 (v : pyval) : result pyval :=
  match v with
  | PStr s => Ok (PStr (String.substring 0 2 s))
  | PList l => Ok (PList (firstn 2 l))
  | _ => Raise TypeError
  end.

(** [wines_data = convert_csv_to_json(df)] and
    [complete_data = create_full_json_structure(wines_data)]. *)
Definition convert_table (df : DataFrame) : result (list pyval * pyval) :=
  wines_data ← convert_csv_to_json df;
  Ok (wines_data, create_full_json_structure wines_data).

(** [complete_data['wine'][:2] if len(complete_data['wine']) >= 2 else complete_data['wine']] *)
Definition wine_sample (complete_data : pyval) : result pyval :=
  w ← subscript complete_data "wine";
  n ← len w;
  if (2 <=? n)%Z then w' ← subscript complete_data "wine"; slice_to_2 w'
  else subscript complete_data "wine".

(** [len(complete_data['wine']) + len(complete_data['steak']) + len(complete_data['sommelierSuggestions'])] *)
Definition total_items (complete_data : pyval) : result Z :=
  w ← subscript complete_data "wine";
  nw ← len w;
  s ← subscript complete_data "steak";
  ns ← len s;
  g ← subscript complete_data "sommelierSuggestions";
  ng ← len g;
  Ok (nw + ns + ng)%Z.

(** * Vocabulary of the properties *)

(** The functions and predicates in which the properties are stated, and the
    tables at which they are tried. *)

Section Vocabulary.
Import Unicode PyStr Re PyNum.

(** ** Rows and records *)

(** Converting every row, stopping at the first exception. *)
Fixpoint map_result {A B} (f : A -> result B) (l : list A) : result (list B) :=
  match l with
  | [] => Ok []
  | x :: l' => y ← f x; ys ← map_result f l'; Ok (y :: ys)
  end.

(** The test of the loop body as a function of the record alone. *)
Definition retained (wine : list (string * pyval)) : bool :=
  match has_name_or_id wine with
  | Ok keep => keep
  | Raise _ => false
  end.

(** A table whose id column holds text, so that pandas keeps its cells as
    strings: the first row has the id 0 and no name. *)
Definition zero_id_table : DataFrame :=
  {| columns := [CStr "id"; CStr "referralId"; CStr "name"];
     rows := [ [CStr "0"; CNaN; CNaN];
               [CStr "A12"; CNaN; CStr "Merlot"] ] |}.

(** ** Strings *)

(** Space characters only; the empty string is one such string. *)
Fixpoint all_space (s : string) : bool :=
  match s with
  | EmptyString => true
  | String c s' => Unicode.isspace c && all_space s'
  end.

(** The word nan, each letter in either case. *)
Definition nan_any_case (s : string) : bool :=
  match s with
  | String a (String b (String c EmptyString)) =>
      (Unicode.same a "n" || Unicode.same a "N")
      && (Unicode.same b "a" || Unicode.same b "A")
      && (Unicode.same c "n" || Unicode.same c "N")
  | _ => false
  end.

(** The string is empty or starts with a character that is no space. *)
Definition starts_nonspace (s : string) : bool :=
  match s with
  | EmptyString => true
  | String c _ => negb (isspace c)
  end.

(** [c in s] for one character. *)
Fixpoint contains (c : ascii) (s : string) : bool :=
  match s with
  | EmptyString => false
  | String d s' => same d c || contains c s'
  end.

(** A line as [clean_lines] keeps them: not empty, stripped, on one line. *)
Definition clean_line (l : string) : Prop :=
  l <> EmptyString /\ strip l = l
  /\ contains LF l = false /\ contains CR l = false.

(** The lines that [clean_lines] joins. *)
Definition kept_lines (text : string) : list string :=
  List.filter (fun line => negb (is_empty line))
    (List.map strip (split LF (sub_newlines text))).

(** [s] between two double quotes. *)
Definition quoted (s : string) : string :=
  String Unicode.QUOTE (s ++ String Unicode.QUOTE EmptyString).

(** ** Years *)

Fixpoint all_digits (s : string) : bool :=
  match s with
  | EmptyString => true
  | String c s' => isdigit c && all_digits s'
  end.

(** Four digits start at index [i] of [s] and stand alone there: the
    character before them, [prev] at index 0, and the character after them
    are no word characters. *)
Definition year_at_from (prev : option ascii) (s : string) (i : nat) : bool :=
  let g := String.substring i 4 s in
  (String.length g =? 4)%nat && all_digits g
  && negb (word_char (match i with O => prev | S j => String.get j s end))
  && negb (word_char (String.get (i + 4) s)).

Definition year_at (s : string) (i : nat) : bool := year_at_from None s i.

(** The four digits at the least such index. *)
Definition first_year (s : string) : option string :=
  option_map (fun i => String.substring i 4 s)
    (List.find (year_at s) (seq 0 (String.length s))).

(** A run of four digits somewhere in the string, read off the words of the
    specification. *)
Definition four_digit_run (s g : string) : Prop :=
  String.length g = 4%nat /\ all_digits g = true
  /\ exists pre post, s = pre ++ g ++ post.

(** ** Percentages *)

(** Digits and points only. *)
Fixpoint all_numchar (s : string) : bool :=
  match s with
  | EmptyString => true
  | String c s' => isnumchar c && all_numchar s'
  end.

(** Neither a digit nor a point. *)
Fixpoint no_numchar (s : string) : bool :=
  match s with
  | EmptyString => true
  | String c s' => negb (isnumchar c) && no_numchar s'
  end.

Fixpoint no_digit (s : string) : bool :=
  match s with
  | EmptyString => true
  | String c s' => negb (isdigit c) && no_digit s'
  end.

Fixpoint count_points (s : string) : nat :=
  match s with
  | EmptyString => O
  | String c s' => (if same c "." then 1 else 0) + count_points s'
  end.

Definition starts_numchar (s : string) : bool :=
  match s with
  | EmptyString => false
  | String c _ => isnumchar c
  end.

Fixpoint ends_numchar (s : string) : bool :=
  match s with
  | EmptyString => false
  | String c s' => if PyStr.is_empty s' then isnumchar c else ends_numchar s'
  end.

(** A numeric token, read off the words of the specification: digits with
    at most one decimal point among them. *)
Definition numeric_token (tok : string) : bool :=
  all_numchar tok && negb (no_digit tok) && (count_points tok <=? 1)%nat.

(** The token goes on into what follows it: with the next character it is
    a numeric token still. *)
Definition token_goes_on (tok post : string) : bool :=
  match post with
  | EmptyString => false
  | String c _ => numeric_token (tok ++ String c EmptyString)
  end.

(** ** Column labels *)

(** The canonical field names with their fallback column indices, as
    [make_wine] passes them to [cell_of]. *)
Definition canonical_fields : list (string * nat) :=
  [ ("id", 0); ("referralId", 1); ("name", 2); ("producer", 3);
    ("originCountry", 4); ("region", 5); ("grapeType", 6); ("wineType", 7);
    ("harvest", 8); ("alcoholLevel", 9); ("agingProcess", 10);
    ("harmonization", 11); ("tasteDescription", 12) ]%nat.

(** A column label, cleaned and lowercased. *)
Definition normalize (col : cell) : string := PyStr.lower (clean_text col false).

(** The label names the field [key], letter case apart. *)
Definition names (key : string) (col : cell) : bool :=
  String.eqb (normalize col) (PyStr.lower key).

(** The label names one of the canonical fields. *)
Definition recognized (col : cell) : bool :=
  existsb (fun kd => names (fst kd) col) canonical_fields.

(** A table with a renamed first column, two columns naming the field name,
    and no column for the other fields. *)
Definition renamed_table : DataFrame :=
  {| columns := [CStr "barcode"; CStr "Name"; CStr " NAME "];
     rows := [ [CInt 3760245210066; CStr "old"; CStr "new"] ] |}.

End Vocabulary.

(** Tactics for the header mapping: the lower-case literals are computed,
    and the chain of comparisons of [header_step] is walked down. *)
Ltac lower_literals :=
  repeat match goal with
  | |- context [PyStr.lower (String ?c ?s)] =>
      let l := eval vm_compute in (PyStr.lower (String c s)) in
      change (PyStr.lower (String c s)) with l
  end.

Ltac header_cases c :=
  repeat match goal with
  | |- context [String.eqb c ?k] =>
      destruct (String.eqb_spec c k);
      [ subst c; simpl; rewrite ?lookup_insert_eq, ?lookup_insert_ne by discriminate;
        try reflexivity
      | ]
  end.

(** * Vocabulary of the further properties *)

Section MoreVocabulary.
Import Unicode PyStr Re PyNum.

(** No space character at all. *)
Fixpoint no_space (s : string) : bool :=
  match s with
  | EmptyString => true
  | String c s' => negb (isspace c) && no_space s'
  end.

(** Every space character of the string is SPACE itself. *)
Fixpoint plain_spaces (s : string) : bool :=
  match s with
  | EmptyString => true
  | String c s' => (negb (isspace c) || same c SPACE) && plain_spaces s'
  end.

(** The string is empty or ends with a character that is no space. *)
Fixpoint ends_nonspace (s : string) : bool :=
  match s with
  | EmptyString => true
  | String c s' => if is_empty s' then negb (isspace c) else ends_nonspace s'
  end.

(** No two space characters side by side; [prev] tells that the character
    before the string is a space. *)
Fixpoint no_double_space_from (prev : bool) (s : string) : bool :=
  match s with
  | EmptyString => true
  | String c s' =>
      if isspace c then negb prev && no_double_space_from true s'
      else no_double_space_from false s'
  end.

(** Words separated by one SPACE each, and nothing else. *)
Definition single_spaced (s : string) : bool :=
  plain_spaces s && starts_nonspace s && ends_nonspace s
  && no_double_space_from false s.

(** [c] put in front of the first string of a list. *)
Definition wcons (c : ascii) (ws : list string) : list string :=
  match ws with
  | [] => [String c EmptyString]
  | w :: ws' => String c w :: ws'
  end.

(** The string cut at every space character: one more piece than it has
    space characters, empty pieces included. *)
Fixpoint chunks (s : string) : list string :=
  match s with
  | EmptyString => [EmptyString]
  | String c s' => if isspace c then EmptyString :: chunks s' else wcons c (chunks s')
  end.

(** The words of the string: its maximal runs of characters that are no
    space. *)
Definition words_of (s : string) : list string :=
  List.filter (fun w => negb (is_empty w)) (chunks s).

(** The pieces, the empty ones left out after the first. *)
Definition first_and_words (s : string) : list string :=
  match chunks s with
  | [] => []
  | w :: ws => w :: List.filter (fun w => negb (is_empty w)) ws
  end.

(** The kinds of values the fields of a record hold. *)
Definition is_none (v : pyval) : bool :=
  match v with PNone => true | _ => false end.

Definition is_int_or_none (v : pyval) : bool :=
  match v with PNone | PInt _ => true | _ => false end.

Definition is_float_or_none (v : pyval) : bool :=
  match v with PNone | PFloat _ => true | _ => false end.

Definition is_str (v : pyval) : bool :=
  match v with PStr _ => true | _ => false end.

(** The keys of a wine record, in the order of the dict literal, each with
    the kind of its value. *)
Definition wine_schema : list (string * (pyval -> bool)) :=
  [ ("id", is_int_or_none); ("referralId", is_int_or_none); ("name", is_str);
    ("producer", is_str); ("originCountry", is_str); ("region", is_str);
    ("grapeType", is_str); ("wineType", is_str); ("harvest", is_int_or_none);
    ("alcoholLevel", is_float_or_none); ("price", is_none); ("importedBy", is_none);
    ("agingProcess", is_str); ("harmonization", is_str); ("tasteDescription", is_str) ].

(** The dict has the keys of the schema, in its order, with values of the
    kinds it tells. *)
Fixpoint conforms (d : list (string * pyval)) (schema : list (string * (pyval -> bool)))
  : bool :=
  match d, schema with
  | [], [] => true
  | (k, v) :: d', (k', kind) :: schema' =>
      String.eqb k k' && kind v && conforms d' schema'
  | _, _ => false
  end.

(** One of the three fields parsed in year mode raises on this row. *)
Definition year_field_raises (hm : gmap string nat) (row : list cell) : Prop :=
  parse_number (cell_of hm row "id" 0) false = Raise OverflowError
  \/ parse_number (cell_of hm row "referralId" 1) false = Raise OverflowError
  \/ parse_number (cell_of hm row "harvest" 8) false = Raise OverflowError.

(** The float is below zero, or a zero with the minus sign. *)
Definition is_negative (f : spec_float) : bool :=
  match f with
  | S754_zero s | S754_infinity s | S754_finite s _ _ => s
  | S754_nan => false
  end.

End MoreVocabulary.

Abbreviation nonempty := (fun w : string => negb (PyStr.is_empty w)).
Abbreviation space_sep := (String Unicode.SPACE EmptyString).

(** * Properties *)

(** ** The builtins on known values *)

(** Values that the interpreter returns, recomputed on the model. *)

Example strip_example :
  PyStr.strip (String Unicode.LF "  a  b " ++ String Unicode.CR EmptyString) = "a  b".
Proof. reflexivity. Qed.

Example split_example : PyStr.split "," "a,,b," = ["a"; EmptyString; "b"; EmptyString].
Proof. reflexivity. Qed.

Example sub_spaces_example :
  Re.sub_spaces (String Unicode.LF " a " ++ String Unicode.CR (String Unicode.LF "b")) = " a b".
Proof. reflexivity. Qed.

Example sub_newlines_example :
  Re.sub_newlines (String Unicode.CR (String Unicode.LF "a") ++ String Unicode.CR "b")
  = String Unicode.LF "a" ++ String Unicode.LF "b".
Proof. reflexivity. Qed.

Example search_year_examples :
  List.map Re.search_year ["x 2018 2019"; "2018-2019"; "20181"; "a_2018"; "abc2018"]
  = [Some "2018"; Some "2018"; None; None; None].
Proof. reflexivity. Qed.

Example search_percent_examples :
  List.map Re.search_percent ["abv 13.5 %"; "1.2.3"; "-5%"; "n/a"]
  = [Some "13.5"; Some "1.2.3"; Some "5"; None].
Proof. reflexivity. Qed.

Example float_of_str_examples :
  List.map PyNum.float_of_str
    ["0.1"; "1e23"; "1_0.5"; "5."; "-0"; "4.9e-324"; "1e999"; " +Inf "; "."; "1e"; "1__0"]
  = [ Ok (S754_finite false 7205759403792794 (-56));
      Ok (S754_finite false 5960464477539062 24);
      Ok (S754_finite false 5910974510923776 (-49));
      Ok (S754_finite false 5629499534213120 (-50));
      Ok (S754_zero true);
      Ok (S754_finite false 1 (-1074));
      Ok (S754_infinity false);
      Ok (S754_infinity false);
      Raise ValueError; Raise ValueError; Raise ValueError ].
Proof. vm_compute. reflexivity. Qed.

Example int_of_float_examples :
  List.map PyNum.int_of_float
    [ S754_finite false 7149464408450662 (-49); S754_finite true 7149464408450662 (-49);
      S754_finite false 5960464477539062 24; S754_infinity true; S754_nan ]
  = [ Ok 12%Z; Ok (-12)%Z; Ok 99999999999999991611392%Z;
      Raise OverflowError; Raise ValueError ].
Proof. vm_compute. reflexivity. Qed.

Example truediv_example :
  PyNum.truediv (PyNum.float_of_Z 100) (PyNum.float_of_Z 3)
  = S754_finite false 4691249611844267 (-47).
Proof. vm_compute. reflexivity. Qed.

(** ** The output document *)

(** C7: whatever the wine list, the document is a dict with exactly the keys
    wine, steak and sommelierSuggestions, in that order; the first holds the
    wine list given, the second a list of 4 entries and the third a list of
    3 entries. *)
Theorem create_full_json_structure_shape (wines_data : list pyval) :
  exists d steaks suggestions,
    create_full_json_structure wines_data = PDict d
    /\ List.map fst d = ["wine"; "steak"; "sommelierSuggestions"]
    /\ getitem d "wine" = Ok (PList wines_data)
    /\ getitem d "steak" = Ok (PList steaks)
    /\ length steaks = 4%nat
    /\ getitem d "sommelierSuggestions" = Ok (PList suggestions)
    /\ length suggestions = 3%nat.
Proof.
  unfold create_full_json_structure, steaks_data, sommelier_suggestions.
  eexists _, _, _. repeat split; reflexivity.
Qed.

(** ** Exceptions that leave [parse_number] *)

(** C3, at the failing input: in year mode the text inf is accepted by
    [float], [int] of the infinite float raises OverflowError, and the
    handler, which names ValueError and TypeError only, lets it through. *)
Theorem parse_number_inf_raises :
  parse_number (CStr "inf") false = Raise OverflowError
  /\ parse_number (CStr "1e999") false = Raise OverflowError.
Proof. split; vm_compute; reflexivity. Qed.

(** ** The loop over the rows *)

Lemma make_wine_fields hm row wine :
  make_wine hm row = Ok wine ->
  getitem wine "id" = parse_number (cell_of hm row "id" 0) false
  /\ getitem wine "name" = Ok (PStr (clean_text (cell_of hm row "name" 2) false)).
Proof.
  unfold make_wine, mbind, result_bind.
  destruct (parse_number (cell_of hm row "id" 0) false); [|discriminate].
  destruct (parse_number (cell_of hm row "referralId" 1) false); [|discriminate].
  destruct (parse_number (cell_of hm row "harvest" 8) false); [|discriminate].
  destruct (parse_number (cell_of hm row "alcoholLevel" 9) true); [|discriminate].
  intros [= <-]. split; reflexivity.
Qed.

Lemma make_wine_retained hm row wine :
  make_wine hm row = Ok wine -> has_name_or_id wine = Ok (retained wine).
Proof.
  intros H. destruct (make_wine_fields _ _ _ H) as [Hid Hname].
  unfold retained, has_name_or_id, mbind, result_bind.
  rewrite Hname.
  destruct (truthy _); [reflexivity|].
  rewrite Hid.
  revert H. unfold make_wine, mbind, result_bind.
  destruct (parse_number (cell_of hm row "id" 0) false); [reflexivity|discriminate].
Qed.

Lemma row_step_spec hm wines row :
  row_step hm wines row =
  match make_wine hm row with
  | Ok wine => Ok (if retained wine then wines ++ [PDict wine] else wines)%list
  | Raise e => Raise e
  end.
Proof.
  unfold row_step, mbind at 1, result_bind at 1.
  destruct (make_wine hm row) as [wine|e] eqn:H; [|reflexivity].
  rewrite (make_wine_retained _ _ _ H). simpl.
  destruct (retained wine); reflexivity.
Qed.

Lemma row_loop_spec hm rows : forall wines,
  row_loop hm rows wines =
  match map_result (make_wine hm) rows with
  | Ok ws => Ok (wines ++ List.map PDict (List.filter retained ws))%list
  | Raise e => Raise e
  end.
Proof.
  induction rows as [|row rows IH]; intros wines; simpl.
  - rewrite app_nil_r. reflexivity.
  - rewrite row_step_spec. unfold mbind, result_bind.
    destruct (make_wine hm row) as [wine|e]; [|reflexivity].
    rewrite IH.
    destruct (map_result (make_wine hm) rows) as [ws|e]; [|reflexivity].
    simpl. destruct (retained wine); simpl; [|reflexivity].
    rewrite <- app_assoc. reflexivity.
Qed.

(** C10: the wine list is the list of the rows' records, in the order of the
    rows, from which the records failing the name-or-id test are left out;
    the first row whose conversion raises ends the conversion with that
    exception. *)
Theorem convert_csv_to_json_map_filter (df : DataFrame) :
  convert_csv_to_json df =
  match map_result (make_wine (build_header_mapping df)) (rows df) with
  | Ok ws => Ok (List.map PDict (List.filter retained ws))
  | Raise e => Raise e
  end.
Proof. unfold convert_csv_to_json. rewrite row_loop_spec. reflexivity. Qed.

(** C9: a row whose id cell parses to the integer 0 and whose cleaned name
    is empty is not appended, the id being present all the same.  The loop
    body leaves the list as it was (or passes on the exception of another
    field of the row), and the record of the row, whose id is 0 and not the
    absent value, is not in the list returned. *)
Theorem zero_id_empty_name_dropped (df : DataFrame) (row : list cell) :
  let hm := build_header_mapping df in
  parse_number (cell_of hm row "id" 0) false = Ok (PInt 0) ->
  clean_text (cell_of hm row "name" 2) false = EmptyString ->
  (forall wines,
     row_step hm wines row =
     match make_wine hm row with
     | Ok _ => Ok wines
     | Raise e => Raise e
     end)
  /\ (forall wine out,
        make_wine hm row = Ok wine ->
        convert_csv_to_json df = Ok out ->
        getitem wine "id" = Ok (PInt 0) /\ ~ In (PDict wine) out).
Proof.
  intros hm Hid Hname.
  assert (Hret : forall wine, make_wine hm row = Ok wine ->
                              getitem wine "id" = Ok (PInt 0) /\ retained wine = false).
  { intros wine Hw. destruct (make_wine_fields _ _ _ Hw) as [Gid Gname].
    rewrite Hid in Gid. rewrite Hname in Gname. split; [exact Gid|].
    unfold retained, has_name_or_id, mbind, result_bind.
    rewrite Gname. simpl. rewrite Gid. reflexivity. }
  split.
  - intros wines. rewrite row_step_spec.
    destruct (make_wine hm row) as [wine|e] eqn:Hw; [|reflexivity].
    destruct (Hret wine eq_refl) as [_ ->]. reflexivity.
  - intros wine out Hw. destruct (Hret wine Hw) as [Gid Hr].
    unfold convert_csv_to_json. rewrite row_loop_spec. fold hm.
    destruct (map_result (make_wine hm) (rows df)) as [ws|]; [|discriminate].
    intros [= <-]. split; [exact Gid|]. simpl. rewrite in_map_iff.
    intros (w & [= ->] & Hin). apply filter_In in Hin.
    destruct Hin as [_ Hin]. congruence.
Qed.

Lemma zero_id_empty_name_dropped_witness :
  (forall wines,
     row_step (build_header_mapping zero_id_table) wines [CStr "0"; CNaN; CNaN]
     = Ok wines)
  /\ exists out, convert_csv_to_json zero_id_table = Ok out /\ length out = 1%nat.
Proof.
  destruct (zero_id_empty_name_dropped zero_id_table [CStr "0"; CNaN; CNaN])
    as [Hstep _]; [vm_compute; reflexivity..|].
  split; [exact Hstep|].
  eexists. split; vm_compute; reflexivity.
Defined.

(** C1, at the failing input: the first row of [zero_id_table] has the id 0,
    which is present, and the list returned holds the second row only. *)
Theorem zero_id_row_not_kept :
  parse_number (CStr "0") false = Ok (PInt 0)
  /\ exists merlot,
       convert_csv_to_json zero_id_table = Ok [PDict merlot]
       /\ getitem merlot "name" = Ok (PStr "Merlot")
       /\ getitem merlot "id" = Ok PNone.
Proof. split; [|eexists; repeat split]; vm_compute; reflexivity. Qed.

(** ** Blank and missing values *)

Lemma lstrip_all_space s : all_space s = true -> PyStr.lstrip s = EmptyString.
Proof.
  induction s as [|c s IH]; simpl; [reflexivity|].
  intros H. apply andb_true_iff in H. destruct H as [-> H]. auto.
Qed.

Lemma strip_all_space s : all_space s = true -> PyStr.strip s = EmptyString.
Proof. intros H. unfold PyStr.strip. rewrite lstrip_all_space by assumption. reflexivity. Qed.

Lemma same_eq c d : Unicode.same c d = true <-> c = d.
Proof. apply Ascii.eqb_eq. Qed.

Lemma lower_nan_any_case s : nan_any_case s = true -> PyStr.lower s = "nan".
Proof.
  destruct s as [|a [|b [|c [|]]]]; simpl; try discriminate.
  rewrite !andb_true_iff, !orb_true_iff, !same_eq.
  intros [[[-> | ->] [-> | ->]] [-> | ->]]; reflexivity.
Qed.

(** C8: a value whose text is empty, made of space characters only, or the
    word nan in any letter case is cleaned to the empty string, in both
    modes.  The text of a string is the string, and the text of the missing
    value NaN is nan. *)
Theorem clean_text_blank_or_nan (text : cell) (preserve_line_breaks : bool) :
  all_space (cell_str text) = true \/ nan_any_case (cell_str text) = true ->
  clean_text text preserve_line_breaks = EmptyString.
Proof.
  intros H. unfold clean_text, is_blank_or_nan.
  destruct H as [H | H].
  - rewrite (strip_all_space _ H). simpl. rewrite orb_true_r. reflexivity.
  - rewrite (lower_nan_any_case _ H). simpl. rewrite orb_true_r. reflexivity.
Qed.

Lemma clean_text_blank_or_nan_witness :
  clean_text (CStr EmptyString) false = EmptyString
  /\ clean_text (CStr (String Unicode.SPACE (String Unicode.LF "  "))) true = EmptyString
  /\ clean_text (CStr "NaN") false = EmptyString
  /\ clean_text CNaN true = EmptyString.
Proof.
  split; [|split; [|split]].
  - apply (clean_text_blank_or_nan (CStr EmptyString) false). left. reflexivity.
  - apply (clean_text_blank_or_nan (CStr (String Unicode.SPACE (String Unicode.LF "  "))) true).
    left. reflexivity.
  - apply (clean_text_blank_or_nan (CStr "NaN") false). right. reflexivity.
  - apply (clean_text_blank_or_nan CNaN true). right. reflexivity.
Defined.

(** ** Facts on stripping *)

Section Strip.
Import Unicode PyStr.

Lemma is_empty_false s : is_empty s = false <-> s <> EmptyString.
Proof. destruct s; simpl; split; congruence. Qed.

Lemma rstrip_empty_iff s : rstrip s = EmptyString <-> all_space s = true.
Proof.
  induction s as [|c s IH]; simpl; [tauto|].
  destruct (isspace c); simpl.
  - destruct (rstrip s); simpl.
    + tauto.
    + split; [discriminate|]. intros H. apply IH in H. discriminate.
  - split; discriminate.
Qed.

Lemma rstrip_idem s : rstrip (rstrip s) = rstrip s.
Proof.
  induction s as [|c s IH]; simpl; [reflexivity|].
  destruct (isspace c && is_empty (rstrip s)) eqn:E; [reflexivity|].
  simpl. rewrite IH, E. reflexivity.
Qed.

Lemma lstrip_starts_nonspace s : starts_nonspace (lstrip s) = true.
Proof.
  induction s as [|c s IH]; simpl; [reflexivity|].
  destruct (isspace c) eqn:E; [exact IH|]. simpl. rewrite E. reflexivity.
Qed.

Lemma lstrip_fixed s : starts_nonspace s = true -> lstrip s = s.
Proof.
  destruct s as [|c s]; simpl; [reflexivity|].
  destruct (isspace c); [discriminate|reflexivity].
Qed.

Lemma rstrip_starts_nonspace s :
  starts_nonspace s = true -> starts_nonspace (rstrip s) = true.
Proof.
  destruct s as [|c s]; simpl; [reflexivity|].
  destruct (isspace c) eqn:E; [discriminate|]. simpl. rewrite E. reflexivity.
Qed.

Lemma all_space_lstrip s : all_space (lstrip s) = all_space s.
Proof.
  induction s as [|c s IH]; simpl; [reflexivity|].
  destruct (isspace c) eqn:E; simpl; [exact IH|]. rewrite E. reflexivity.
Qed.

Lemma strip_empty_iff s : strip s = EmptyString <-> all_space s = true.
Proof. unfold strip. rewrite rstrip_empty_iff, all_space_lstrip. tauto. Qed.

Lemma strip_starts_nonspace s : starts_nonspace (strip s) = true.
Proof. apply rstrip_starts_nonspace, lstrip_starts_nonspace. Qed.

Lemma strip_rstripped s : rstrip (strip s) = strip s.
Proof. apply rstrip_idem. Qed.

(** A string that starts with no space and ends with none is its own strip. *)
Lemma strip_fixed s : starts_nonspace s = true -> rstrip s = s -> strip s = s.
Proof. intros H1 H2. unfold strip. rewrite (lstrip_fixed _ H1). exact H2. Qed.

Lemma strip_idem s : strip (strip s) = strip s.
Proof. apply strip_fixed; [apply strip_starts_nonspace|apply strip_rstripped]. Qed.

Lemma starts_nonspace_not_all_space s :
  s <> EmptyString -> starts_nonspace s = true -> all_space s = false.
Proof.
  destruct s as [|c s]; simpl; [congruence|].
  intros _ H. destruct (isspace c); [discriminate|reflexivity].
Qed.

End Strip.

(** ** Facts on the whitespace substitution *)

Section Collapse.
Import Unicode PyStr Re.

Lemma isspace_SPACE : isspace SPACE = true.
Proof. reflexivity. Qed.

Lemma sub_spaces_from_idem s :
  (forall b, sub_spaces_from false (sub_spaces_from b s) = sub_spaces_from b s)
  /\ sub_spaces_from true (sub_spaces_from true s) = sub_spaces_from true s.
Proof.
  induction s as [|c s [IH1 IH2]]; simpl; [split; reflexivity|].
  destruct (isspace c) eqn:E.
  - split; [intros [|]|]; simpl; rewrite ?isspace_SPACE, ?IH1, ?IH2; reflexivity.
  - split; [intros b|]; simpl; rewrite E, IH1; reflexivity.
Qed.

Lemma sub_spaces_idem s : sub_spaces (sub_spaces s) = sub_spaces s.
Proof. apply sub_spaces_from_idem. Qed.

Lemma sub_spaces_run_empty s :
  sub_spaces_from true s = EmptyString -> all_space s = true.
Proof.
  induction s as [|c s IH]; simpl; [reflexivity|].
  destruct (isspace c); [exact IH|discriminate].
Qed.

Lemma sub_spaces_from_rstripped s : forall b,
  rstrip s = s -> rstrip (sub_spaces_from b s) = sub_spaces_from b s.
Proof.
  induction s as [|c s IH]; intros b; simpl; [reflexivity|].
  destruct (isspace c) eqn:E; simpl.
  - destruct (is_empty (rstrip s)) eqn:Es; [discriminate|].
    intros [= H].
    assert (Hne : sub_spaces_from true s <> EmptyString).
    { intros Hx. apply sub_spaces_run_empty, rstrip_empty_iff in Hx.
      rewrite Hx in Es. discriminate. }
    destruct b; simpl.
    + apply IH, H.
    + rewrite ?isspace_SPACE, (IH true H). simpl.
      apply is_empty_false in Hne. rewrite Hne. reflexivity.
  - intros [= H]. rewrite E, (IH false H). reflexivity.
Qed.

Lemma sub_spaces_starts_nonspace s :
  starts_nonspace s = true -> starts_nonspace (sub_spaces s) = true.
Proof.
  destruct s as [|c s]; simpl; [reflexivity|].
  unfold sub_spaces. simpl.
  destruct (isspace c) eqn:E; [discriminate|]. simpl. rewrite E. reflexivity.
Qed.

(** What the whitespace-collapsing mode returns is left as it is by
    [strip] and by the substitution. *)
Lemma collapse_fixed s :
  let r := sub_spaces (strip s) in
  strip r = r /\ sub_spaces r = r.
Proof.
  simpl. split.
  - apply strip_fixed.
    + apply sub_spaces_starts_nonspace, strip_starts_nonspace.
    + apply sub_spaces_from_rstripped, strip_rstripped.
  - apply sub_spaces_idem.
Qed.

End Collapse.

(** ** Facts on the line-preserving mode *)

Section Lines.
Import Unicode PyStr Re.

Lemma sub_newlines_no_CR_aux s :
  contains CR (sub_newlines s) = false
  /\ forall c, contains CR (sub_newlines (String c s)) = false.
Proof.
  induction s as [|d s [IH1 IH2]].
  - split; [reflexivity|]. intros c. simpl.
    destruct (same c CR) eqn:E; simpl; [reflexivity|]. rewrite E. reflexivity.
  - split; [apply IH2|]. intros c.
    change (sub_newlines (String c (String d s))) with
      (if same c CR
       then String LF (if same d LF then sub_newlines s else sub_newlines (String d s))
       else String c (sub_newlines (String d s))).
    destruct (same c CR) eqn:E.
    + destruct (same d LF); simpl; [exact IH1|apply IH2].
    + simpl contains at 1. rewrite E. apply IH2.
Qed.

Lemma sub_newlines_no_CR s : contains CR (sub_newlines s) = false.
Proof. apply sub_newlines_no_CR_aux. Qed.

Lemma sub_newlines_fixed s : contains CR s = false -> sub_newlines s = s.
Proof.
  induction s as [|c s IH]; simpl; [reflexivity|].
  destruct (same c CR); simpl; [discriminate|].
  intros H. rewrite (IH H). reflexivity.
Qed.

Lemma contains_app c s t : contains c (s ++ t) = contains c s || contains c t.
Proof.
  induction s as [|d s IH]; simpl; [reflexivity|].
  rewrite IH, orb_assoc. reflexivity.
Qed.

Lemma contains_lstrip c s : contains c s = false -> contains c (lstrip s) = false.
Proof.
  induction s as [|d s IH]; simpl; [reflexivity|].
  intros H. apply orb_false_iff in H. destruct H as [H1 H2].
  destruct (isspace d); [auto|]. simpl. rewrite H1, H2. reflexivity.
Qed.

Lemma contains_rstrip c s : contains c s = false -> contains c (rstrip s) = false.
Proof.
  induction s as [|d s IH]; simpl; [reflexivity|].
  intros H. apply orb_false_iff in H. destruct H as [H1 H2].
  destruct (isspace d && is_empty (rstrip s)); [reflexivity|].
  simpl. rewrite H1, (IH H2). reflexivity.
Qed.

Lemma contains_strip c s : contains c s = false -> contains c (strip s) = false.
Proof. intros H. apply contains_rstrip, contains_lstrip, H. Qed.

(** No line holds the separator, and a character absent from the string is
    absent from every line. *)
Lemma split_lines_free sep c s :
  (same c sep = true \/ contains c s = false) ->
  Forall (fun l => contains c l = false) (split sep s).
Proof.
  induction s as [|d s IH]; simpl; intros H.
  - repeat constructor.
  - destruct (same d sep) eqn:E.
    + constructor; [reflexivity|]. apply IH.
      destruct H as [H|H]; [auto|]. apply orb_false_iff in H. tauto.
    + assert (Hd : same d c = false).
      { destruct H as [H|H]; [|apply orb_false_iff in H; tauto].
        apply same_eq in H. subst c. exact E. }
      assert (IH' : Forall (fun l => contains c l = false) (split sep s)).
      { apply IH. destruct H as [H|H]; [auto|]. apply orb_false_iff in H. tauto. }
      destruct (split sep s) as [|l ls]; simpl.
      * repeat constructor. simpl. rewrite Hd. reflexivity.
      * inversion IH' as [|? ? Hl Hls]; subst. constructor; [|exact Hls].
        simpl. rewrite Hd. exact Hl.
Qed.

Lemma same_refl c : same c c = true.
Proof. apply same_eq. reflexivity. Qed.

Lemma split_one sep l : contains sep l = false -> split sep l = [l].
Proof.
  induction l as [|c l IH]; simpl; [reflexivity|].
  intros H. apply orb_false_iff in H. destruct H as [H1 H2].
  rewrite H1, (IH H2). reflexivity.
Qed.

Lemma split_app sep l rest :
  contains sep l = false ->
  split sep (l ++ String sep rest) = l :: split sep rest.
Proof.
  induction l as [|c l IH]; simpl.
  - intros _. rewrite same_refl. reflexivity.
  - intros H. apply orb_false_iff in H. destruct H as [H1 H2].
    rewrite H1, (IH H2). reflexivity.
Qed.

Lemma split_join sep ls :
  ls <> [] ->
  Forall (fun l => contains sep l = false) ls ->
  split sep (join (String sep EmptyString) ls) = ls.
Proof.
  unfold join. induction ls as [|l ls IH]; [congruence|].
  intros _ H. inversion H as [|? ? Hl Hls]; subst.
  destruct ls as [|l' ls].
  - simpl. apply split_one, Hl.
  - change (String.concat (String sep EmptyString) (l :: l' :: ls)) with
      (l ++ String sep (String.concat (String sep EmptyString) (l' :: ls))).
    rewrite (split_app _ _ _ Hl), IH; [reflexivity|discriminate|exact Hls].
Qed.

Lemma contains_join c sep ls :
  same sep c = false ->
  Forall (fun l => contains c l = false) ls ->
  contains c (join (String sep EmptyString) ls) = false.
Proof.
  intros Hsep. unfold join. induction ls as [|l ls IH]; [reflexivity|].
  intros H. inversion H as [|? ? Hl Hls]; subst.
  destruct ls as [|l' ls]; [exact Hl|].
  change (String.concat (String sep EmptyString) (l :: l' :: ls)) with
    (l ++ String sep (String.concat (String sep EmptyString) (l' :: ls))).
  rewrite contains_app, Hl. simpl. rewrite Hsep. apply IH, Hls.
Qed.

Lemma kept_lines_clean text : Forall clean_line (kept_lines text).
Proof.
  unfold kept_lines. apply List.Forall_forall. intros l Hl.
  apply filter_In in Hl. destruct Hl as [Hl Hne].
  apply in_map_iff in Hl. destruct Hl as (l0 & <- & Hl0).
  assert (H1 : contains LF l0 = false).
  { pose proof (split_lines_free LF LF (sub_newlines text)
      (or_introl (same_refl LF))) as HF.
    rewrite List.Forall_forall in HF. apply HF, Hl0. }
  assert (H2 : contains CR l0 = false).
  { pose proof (split_lines_free LF CR (sub_newlines text)
      (or_intror (sub_newlines_no_CR text))) as HF.
    rewrite List.Forall_forall in HF. apply HF, Hl0. }
  repeat split.
  - apply is_empty_false. apply negb_true_iff. exact Hne.
  - apply strip_idem.
  - apply contains_strip, H1.
  - apply contains_strip, H2.
Qed.

Lemma filter_map_clean ls :
  Forall clean_line ls ->
  List.filter (fun line => negb (is_empty line)) (List.map strip ls) = ls.
Proof.
  induction 1 as [|l ls (Hne & Hs & _) _ IH]; simpl; [reflexivity|].
  rewrite Hs, IH. apply is_empty_false in Hne. rewrite Hne. reflexivity.
Qed.

(** Joined clean lines are a fixed point of [clean_lines]. *)
Lemma clean_lines_fixed ls :
  Forall clean_line ls ->
  clean_lines (join (String LF EmptyString) ls) = join (String LF EmptyString) ls.
Proof.
  intros H. destruct ls as [|l ls]; [reflexivity|].
  unfold clean_lines.
  rewrite sub_newlines_fixed.
  2:{ apply contains_join; [reflexivity|].
      eapply Forall_impl; [|exact H]. intros ? (_ & _ & _ & ?). assumption. }
  rewrite split_join; [|discriminate|].
  2:{ eapply Forall_impl; [|exact H]. intros ? (_ & _ & ? & _). assumption. }
  rewrite (filter_map_clean _ H). reflexivity.
Qed.

Lemma join_clean_not_blank ls :
  Forall clean_line ls -> ls <> [] ->
  all_space (join (String LF EmptyString) ls) = false.
Proof.
  intros H Hne. destruct ls as [|l ls]; [congruence|].
  inversion H as [|? ? (Hl & Hs & _) _]; subst.
  assert (Hl' : all_space l = false).
  { apply starts_nonspace_not_all_space; [exact Hl|].
    rewrite <- Hs. apply strip_starts_nonspace. }
  unfold join. destruct l as [|c l]; [congruence|].
  simpl in Hl'. apply andb_false_iff in Hl'.
  destruct Hl' as [Hc|Hc].
  - destruct ls; simpl; rewrite Hc; reflexivity.
  - simpl in Hs.
    assert (Hsp : isspace c = false).
    { pose proof (strip_starts_nonspace (String c l)) as Hx.
      rewrite Hs in Hx. simpl in Hx. apply negb_true_iff in Hx. exact Hx. }
    destruct ls; simpl; rewrite Hsp; reflexivity.
Qed.

End Lines.

(** ** Cleaning twice *)

Lemma lower_char_n c : Unicode.lower c = "n"%char -> c = "n"%char \/ c = "N"%char.
Proof.
  destruct c as [[] [] [] [] [] [] [] []]; vm_compute; intros H;
    (discriminate H || (left; reflexivity) || (right; reflexivity)).
Qed.

Lemma lower_char_a c : Unicode.lower c = "a"%char -> c = "a"%char \/ c = "A"%char.
Proof.
  destruct c as [[] [] [] [] [] [] [] []]; vm_compute; intros H;
    (discriminate H || (left; reflexivity) || (right; reflexivity)).
Qed.

Lemma lower_nan_iff s : PyStr.lower s = "nan" <-> nan_any_case s = true.
Proof.
  split; [|apply lower_nan_any_case].
  destruct s as [|a [|b [|c [|]]]]; simpl; try discriminate.
  intros [= Ha Hb Hc].
  apply lower_char_n in Ha, Hc. apply lower_char_a in Hb.
  destruct Ha as [-> | ->], Hb as [-> | ->], Hc as [-> | ->]; reflexivity.
Qed.

(** The opening test of [clean_text] on a string. *)
Lemma is_blank_or_nan_false s :
  all_space s = false -> nan_any_case s = false -> is_blank_or_nan (CStr s) = false.
Proof.
  intros Hs Hn. unfold is_blank_or_nan. simpl.
  rewrite !orb_false_iff. repeat split.
  - destruct s; [discriminate|reflexivity].
  - apply String.eqb_neq. rewrite strip_empty_iff. congruence.
  - apply String.eqb_neq. rewrite lower_nan_iff. congruence.
Qed.

(** C2, refuted as stated: cleaning removes one layer of wrapping quotes, so
    a string wrapped twice is cleaned to a string that is still wrapped, and
    cleaning that again removes the second layer. *)
Lemma clean_text_not_idempotent :
  ~ (forall (s : string) (preserve_line_breaks : bool),
       clean_text (CStr (clean_text (CStr s) preserve_line_breaks)) preserve_line_breaks
       = clean_text (CStr s) preserve_line_breaks).
Proof.
  intros H. specialize (H (quoted (quoted "a")) false).
  vm_compute in H. discriminate H.
Qed.

(** C2, amended: in both modes, cleaning the result of a cleaning returns it
    unchanged whenever that result is not wrapped in double quotes and is
    not the word nan. *)
Theorem clean_text_idempotent_unless_wrapped_or_nan
    (s : string) (preserve_line_breaks : bool) :
  let r := clean_text (CStr s) preserve_line_breaks in
  wrapped r = false ->
  nan_any_case r = false ->
  clean_text (CStr r) preserve_line_breaks = r.
Proof.
  intros r Hw Hn.
  destruct (String.eqb r EmptyString) eqn:Er.
  { apply String.eqb_eq in Er. rewrite Er. reflexivity. }
  apply String.eqb_neq in Er.
  assert (Hfix : (if preserve_line_breaks then clean_lines r
                  else Re.sub_spaces (PyStr.strip r)) = r
                 /\ all_space r = false).
  { assert (Hr : r = if is_blank_or_nan (CStr s) then EmptyString
                      else if preserve_line_breaks then clean_lines (unwrap_quotes s)
                           else Re.sub_spaces (PyStr.strip (unwrap_quotes s)))
      by reflexivity.
    clearbody r. clear Hw Hn.
    destruct (is_blank_or_nan (CStr s)); [congruence|].
    destruct preserve_line_breaks; subst r.
    - change (clean_lines (unwrap_quotes s)) with
        (PyStr.join (String Unicode.LF EmptyString) (kept_lines (unwrap_quotes s))) in *.
      pose proof (kept_lines_clean (unwrap_quotes s)) as Hk.
      split; [apply clean_lines_fixed, Hk|].
      apply join_clean_not_blank; [exact Hk|].
      intros Hnil. rewrite Hnil in Er. apply Er. reflexivity.
    - destruct (collapse_fixed (unwrap_quotes s)) as [H1 H2].
      split; [rewrite H1; exact H2|].
      destruct (all_space _) eqn:Ea; [|reflexivity].
      apply strip_empty_iff in Ea. rewrite H1 in Ea. congruence. }
  destruct Hfix as [Hfix Hsp].
  unfold clean_text. rewrite (is_blank_or_nan_false _ Hsp Hn).
  simpl cell_str. unfold unwrap_quotes. rewrite Hw. exact Hfix.
Qed.

Lemma clean_text_idempotent_unless_wrapped_or_nan_witness :
  clean_text (CStr "a b") false = "a b"
  /\ clean_text (CStr (clean_text (CStr (quoted (String Unicode.CR " a  b  "))) true)) true
     = clean_text (CStr (quoted (String Unicode.CR " a  b  "))) true.
Proof.
  split.
  - apply (clean_text_idempotent_unless_wrapped_or_nan "  a   b " false); reflexivity.
  - apply (clean_text_idempotent_unless_wrapped_or_nan
             (quoted (String Unicode.CR " a  b  ")) true); reflexivity.
Defined.

(** ** Digits *)

Section Digits.
Import Unicode PyNum.

Lemma isdigit_facts c :
  isdigit c = true ->
  isword c = true /\ in_range 0 127 c = true /\ c_isspace c = false
  /\ same c "-" = false /\ same c "+" = false /\ same c "_" = false.
Proof.
  destruct c as [[] [] [] [] [] [] [] []]; vm_compute; intros H;
    first [discriminate H | repeat split].
Qed.

Lemma all_digits_is_ascii g : all_digits g = true -> is_ascii g = true.
Proof.
  induction g as [|c g IH]; simpl; [reflexivity|].
  intros H. apply andb_true_iff in H. destruct H as [Hc Hg].
  destruct (isdigit_facts c Hc) as (_ & -> & _). auto.
Qed.

Lemma all_digits_c_rstrip g : all_digits g = true -> c_rstrip g = g.
Proof.
  induction g as [|c g IH]; simpl; [reflexivity|].
  intros H. apply andb_true_iff in H. destruct H as [Hc Hg].
  destruct (isdigit_facts c Hc) as (_ & _ & -> & _). rewrite (IH Hg). reflexivity.
Qed.

Lemma all_digits_more g : all_digits g = true -> digits_more g = (g, EmptyString).
Proof.
  induction g as [|c g IH]; simpl; [reflexivity|].
  intros H. apply andb_true_iff in H. destruct H as [Hc Hg].
  rewrite Hc, (IH Hg). reflexivity.
Qed.

(** [int] of a non-empty string of digits is its decimal value. *)
Lemma int_of_digits g :
  g <> EmptyString -> all_digits g = true -> int_of_str g = Ok (digits_value g).
Proof.
  intros Hne Hg. unfold int_of_str, to_ascii.
  rewrite (all_digits_is_ascii _ Hg).
  destruct g as [|c g]; [congruence|].
  pose proof Hg as Hg'. simpl in Hg'. apply andb_true_iff in Hg'.
  destruct Hg' as [Hc Hrest].
  destruct (isdigit_facts c Hc) as (_ & _ & Hsp & Hm & Hp & _).
  assert (Hl : c_lstrip (String c g) = String c g) by (simpl; rewrite Hsp; reflexivity).
  rewrite Hl, (all_digits_c_rstrip _ Hg).
  unfold sign. rewrite Hm, Hp. unfold digitpart. rewrite Hc.
  rewrite (all_digits_more _ Hg). reflexivity.
Qed.

End Digits.

(** ** The search for a year *)

Section Year.
Import Unicode Re.

Lemma match_year_spec prev s :
  match_year prev s =
  if year_at_from prev s 0 then Some (String.substring 0 4 s) else None.
Proof.
  unfold year_at_from.
  destruct s as [|a [|b [|c [|d rest]]]]; try reflexivity.
  simpl.
  assert (Hs : String.substring 0 0 rest = EmptyString) by (destruct rest; reflexivity).
  assert (Hg : String.get 0 rest = head rest) by (destruct rest; reflexivity).
  rewrite Hs, Hg. unfold boundary. simpl.
  destruct (isdigit a) eqn:Ea; [|rewrite !andb_false_r; reflexivity].
  destruct (isdigit b) eqn:Eb; [|rewrite !andb_false_r; reflexivity].
  destruct (isdigit c) eqn:Ec; [|rewrite !andb_false_r; reflexivity].
  destruct (isdigit d) eqn:Ed; [|rewrite !andb_false_r; reflexivity].
  destruct (isdigit_facts a Ea) as (-> & _).
  destruct (isdigit_facts d Ed) as (-> & _).
  destruct (word_char prev), (word_char (head rest)); reflexivity.
Qed.

Lemma find_map_S (P : nat -> bool) l :
  List.find P (List.map S l) = option_map S (List.find (fun i => P (S i)) l).
Proof.
  induction l as [|x l IH]; simpl; [reflexivity|].
  destruct (P (S x)); [reflexivity|exact IH].
Qed.

Lemma search_year_from_first s : forall prev,
  search_year_from prev s =
  option_map (fun i => String.substring i 4 s)
    (List.find (year_at_from prev s) (seq 0 (String.length s))).
Proof.
  induction s as [|c s IH]; intros prev; [reflexivity|].
  cbn [search_year_from]. rewrite match_year_spec.
  cbn [String.length seq List.find].
  destruct (year_at_from prev (String c s) 0); [reflexivity|].
  rewrite IH, <- seq_shift, find_map_S.
  change (fun i => year_at_from prev (String c s) (S i))
    with (year_at_from (Some c) s).
  destruct (List.find _ _); reflexivity.
Qed.

(** The search of the regular expression returns the first four digits
    that stand alone. *)
Lemma search_year_first s : search_year s = first_year s.
Proof. apply search_year_from_first. Qed.

Lemma first_year_digits s g :
  first_year s = Some g -> g <> EmptyString /\ all_digits g = true.
Proof.
  unfold first_year.
  destruct (List.find _ _) as [i|] eqn:E; [|discriminate].
  intros [= <-]. apply find_some in E. destruct E as [_ E].
  unfold year_at, year_at_from in E.
  rewrite !andb_true_iff in E. destruct E as [[[E1 E2] _] _].
  split; [|exact E2].
  intros Hx. rewrite Hx in E1. discriminate.
Qed.

End Year.

(** ** Year parsing *)

Lemma length_append s t :
  String.length (s ++ t) = (String.length s + String.length t)%nat.
Proof. induction s as [|c s IH]; simpl; [reflexivity|]. rewrite IH. reflexivity. Qed.

Lemma float_of_str_raises s e : PyNum.float_of_str s = Raise e -> e = ValueError.
Proof.
  unfold PyNum.float_of_str.
  destruct (PyNum.sign _) as [neg body].
  destruct (_ || _); [discriminate|].
  destruct (String.eqb _ _); [discriminate|].
  destruct (PyNum.floatnumber body) as [[[ip fp] ex]|]; [discriminate|].
  intros [= <-]. reflexivity.
Qed.

(** C4, refuted as stated, part by part.
    - A cleaned string can hold a run of four digits while year parsing
      returns no such run: in abc2018 the digits follow a letter, the
      pattern asks for a word boundary before them, nothing matches, and the
      fallback fails on the letters.
    - The fallback is no integer parsing: 12.7 holds no run of four digits
      and is no integer, and year parsing returns 12, the float truncated. *)
Lemma year_is_not_first_four_digit_run :
  ~ (forall s g,
       four_digit_run (clean_text (CStr s) false) g ->
       exists g', four_digit_run (clean_text (CStr s) false) g'
                  /\ parse_number (CStr s) false = Ok (PInt (PyNum.digits_value g')))
  /\ ~ (forall s,
          (forall g, ~ four_digit_run (clean_text (CStr s) false) g) ->
          parse_number (CStr s) false =
          match PyNum.int_of_str (clean_text (CStr s) false) with
          | Ok z => Ok (PInt z)
          | Raise _ => Ok PNone
          end).
Proof.
  split; intros H.
  - destruct (H "abc2018" "2018") as (g' & _ & Hp).
    + split; [reflexivity|]. split; [reflexivity|].
      exists "abc", EmptyString. reflexivity.
    + vm_compute in Hp. discriminate Hp.
  - assert (Hrun : forall g, ~ four_digit_run (clean_text (CStr "12.7") false) g);
      [|apply (H "12.7") in Hrun; vm_compute in Hrun; discriminate Hrun].
    intros g (Hlen & Hd & pre & post & Heq).
    change (clean_text (CStr "12.7") false) with "12.7" in Heq.
    destruct pre as [|c pre].
    + destruct g as [|a [|b [|c [|d [|]]]]]; try discriminate Hlen.
      simpl in Heq. injection Heq as <- <- <- <- _. discriminate Hd.
    + apply (f_equal String.length) in Heq.
      simpl in Heq. rewrite !length_append, Hlen in Heq. lia.
Qed.

(** C4, amended: on a value that is not blank, year parsing returns the
    first run of four digits of the cleaned string that stands alone, with
    no word character (letter, digit or underscore) before or after it.
    When there is none, the whole cleaned string is read as a float: the
    result is that float truncated to an integer when [int] accepts it, and
    the absent value when the string is no float.  In particular
    Harvest: 2018 vintage gives 2018 and abc gives the absent value. *)
Theorem parse_year_spec :
  (forall text : cell,
     is_blank_or_nan text = false ->
     let cleaned := clean_text (CStr (cell_str text)) false in
     (forall g, first_year cleaned = Some g ->
                parse_number text false = Ok (PInt (PyNum.digits_value g)))
     /\ (first_year cleaned = None ->
         (forall f z, PyNum.float_of_str cleaned = Ok f ->
                      PyNum.int_of_float f = Ok z ->
                      parse_number text false = Ok (PInt z))
         /\ (forall e, PyNum.float_of_str cleaned = Raise e ->
                       parse_number text false = Ok PNone)))
  /\ parse_number (CStr "Harvest: 2018 vintage") false = Ok (PInt 2018)
  /\ parse_number (CStr "abc") false = Ok PNone.
Proof.
  split; [|split; vm_compute; reflexivity].
  intros text Hb cleaned. unfold parse_number. rewrite Hb. fold cleaned.
  simpl negb. cbv iota. rewrite search_year_first. split.
  - intros g Hg. rewrite Hg.
    destruct (first_year_digits _ _ Hg) as [Hne Hd].
    rewrite (int_of_digits _ Hne Hd). reflexivity.
  - intros Hnone. rewrite Hnone. split.
    + intros f z Hf Hz. rewrite Hf. simpl. rewrite Hz. reflexivity.
    + intros e He. rewrite He. apply float_of_str_raises in He. subst e. reflexivity.
Qed.

Lemma parse_year_spec_witness :
  parse_number (CStr "x 1999, 2018") false = Ok (PInt 1999)
  /\ parse_number (CStr "12.7") false = Ok (PInt 12)
  /\ parse_number (CStr "n/a") false = Ok PNone.
Proof.
  pose proof (proj1 parse_year_spec) as H.
  split; [|split].
  - destruct (H (CStr "x 1999, 2018") eq_refl) as [H1 _].
    apply (H1 "1999"). vm_compute. reflexivity.
  - destruct (H (CStr "12.7") eq_refl) as [_ H2].
    destruct (H2 eq_refl) as [H3 _].
    apply (H3 (S754_finite false 7149464408450662 (-49))); vm_compute; reflexivity.
  - destruct (H (CStr "n/a") eq_refl) as [_ H2].
    destruct (H2 eq_refl) as [_ H3].
    apply (H3 ValueError). vm_compute. reflexivity.
Defined.

(** ** Percentage parsing *)

Section Percent.
Import Unicode Re.

Lemma search_percent_skip pre rest :
  no_numchar pre = true -> search_percent (pre ++ rest) = search_percent rest.
Proof.
  induction pre as [|c pre IH]; simpl; [reflexivity|].
  intros H. apply andb_true_iff in H. destruct H as [Hc Hpre].
  apply negb_true_iff in Hc. rewrite Hc. auto.
Qed.

Lemma greedy_app tok post :
  all_numchar tok = true -> starts_numchar post = false ->
  greedy isnumchar (tok ++ post) = tok.
Proof.
  intros Ht Hp. induction tok as [|c tok IH]; simpl.
  - destruct post as [|d post]; [reflexivity|]. simpl in *. rewrite Hp. reflexivity.
  - simpl in Ht. apply andb_true_iff in Ht. destruct Ht as [Hc Ht].
    rewrite Hc, (IH Ht). reflexivity.
Qed.

(** The search returns the first maximal run of digits and points. *)
Lemma search_percent_run pre tok post :
  no_numchar pre = true -> tok <> EmptyString -> all_numchar tok = true ->
  starts_numchar post = false ->
  search_percent (pre ++ tok ++ post) = Some tok.
Proof.
  intros Hpre Hne Ht Hp. rewrite (search_percent_skip _ _ Hpre).
  destruct tok as [|c tok]; [congruence|].
  pose proof (greedy_app _ _ Ht Hp) as Hg.
  simpl in Ht. apply andb_true_iff in Ht. destruct Ht as [Hc _].
  change (search_percent (String c tok ++ post)) with
    (if isnumchar c then Some (greedy isnumchar (String c tok ++ post))
     else search_percent (tok ++ post)).
  rewrite Hc, Hg. reflexivity.
Qed.

End Percent.

(** C5, refuted as stated, whether the leading token is the first one of
    the string or the one the string starts with.
    - The cleaned string Approx. 13.5% holds the numeric token 13.5, with no
      digit before it and a percent sign after it, and percentage parsing
      returns the absent value: the search stops at the point that ends the
      abbreviation, and that point alone is no number.
    - The cleaned string 12.5. starts with the numeric token 12.5, and
      percentage parsing returns the absent value: the run taken holds the
      closing point too, and [float] refuses it. *)
Lemma percent_is_not_leading_numeric_token :
  ~ (forall s pre tok post f,
       clean_text (CStr s) false = pre ++ tok ++ post ->
       no_digit pre = true -> ends_numchar pre = false ->
       numeric_token tok = true ->
       token_goes_on tok post = false ->
       PyNum.float_of_str tok = Ok f ->
       parse_number (CStr s) true
       = Ok (PFloat (PyNum.truediv f (PyNum.float_of_Z 100))))
  /\ ~ (forall s tok post f,
          clean_text (CStr s) false = tok ++ post ->
          numeric_token tok = true ->
          token_goes_on tok post = false ->
          PyNum.float_of_str tok = Ok f ->
          parse_number (CStr s) true
          = Ok (PFloat (PyNum.truediv f (PyNum.float_of_Z 100)))).
Proof.
  split; intros H.
  - specialize (H "Approx. 13.5%" "Approx. " "13.5" "%" _
                  eq_refl eq_refl eq_refl eq_refl eq_refl eq_refl).
    vm_compute in H. discriminate H.
  - specialize (H "12.5." "12.5" "." _ eq_refl eq_refl eq_refl eq_refl).
    vm_compute in H. discriminate H.
Qed.

(** C5, amended: on a value that is not blank, percentage parsing takes the
    first maximal run of digits and decimal points of the cleaned string,
    wherever it starts; when [float] accepts that run the result is the
    float divided by 100, and when it does not the result is the absent
    value.  In particular 13.5% gives 0.135, the float that the literal
    0.135 denotes, and the empty string gives the absent value. *)
Theorem parse_percent_spec :
  (forall (text : cell) (pre tok post : string),
     is_blank_or_nan text = false ->
     clean_text (CStr (cell_str text)) false = pre ++ tok ++ post ->
     no_numchar pre = true ->
     tok <> EmptyString ->
     all_numchar tok = true ->
     starts_numchar post = false ->
     parse_number text true =
     match PyNum.float_of_str tok with
     | Ok f => Ok (PFloat (PyNum.truediv f (PyNum.float_of_Z 100)))
     | Raise _ => Ok PNone
     end)
  /\ parse_number (CStr "13.5%") true
     = Ok (PFloat (S754_finite false 4863887597560136 (-55)))
  /\ PyNum.float_of_str "0.135" = Ok (S754_finite false 4863887597560136 (-55))
  /\ parse_number (CStr EmptyString) true = Ok PNone.
Proof.
  split; [|repeat split; vm_compute; reflexivity].
  intros text pre tok post Hb Hc Hpre Hne Ht Hp.
  unfold parse_number. rewrite Hb, Hc. simpl negb. cbv iota.
  rewrite (search_percent_run _ _ _ Hpre Hne Ht Hp).
  destruct (PyNum.float_of_str tok) as [f|e] eqn:Hf; [reflexivity|].
  apply float_of_str_raises in Hf. subst e. reflexivity.
Qed.

Lemma parse_percent_spec_witness :
  parse_number (CStr "abv 12,5 %") true
  = Ok (PFloat (S754_finite false 8646911284551352 (-56)))
  /\ parse_number (CStr "v. 13%") true = Ok PNone.
Proof.
  pose proof (proj1 parse_percent_spec) as H.
  split.
  - apply (H (CStr "abv 12,5 %") "abv " "12" ",5 %"); try reflexivity. discriminate.
  - apply (H (CStr "v. 13%") "v" "." " 13%"); try reflexivity. discriminate.
Defined.

(** ** The header mapping *)

Lemma header_step_lookup hm i col key dflt :
  In (key, dflt) canonical_fields ->
  header_step hm i col !! key = if names key col then Some i else hm !! key.
Proof.
  intros Hin. unfold header_step, names, normalize.
  generalize (PyStr.lower (clean_text col false)) as c. intros c.
  simpl in Hin.
  repeat (destruct Hin as [[= <- <-]|Hin]; [lower_literals; header_cases c; reflexivity|]).
  destruct Hin.
Qed.

Lemma header_step_origin hm i col k v :
  header_step hm i col !! k = Some v ->
  hm !! k = Some v \/ (v = i /\ recognized col = true).
Proof.
  unfold header_step, recognized, names, normalize. simpl existsb. lower_literals.
  generalize (PyStr.lower (clean_text col false)) as c. intros c.
  repeat match goal with
  | |- context [if String.eqb c ?key then _ else _] =>
      destruct (String.eqb_spec c key);
      [ subst c; intros H; apply lookup_insert_Some in H;
        destruct H as [[_ <-]|[_ H]]; [right; split; reflexivity|left; exact H]
      | ]
  end.
  intros H. left. exact H.
Qed.

Lemma header_loop_unnamed key dflt cols : forall n hm,
  In (key, dflt) canonical_fields ->
  forallb (fun col => negb (names key col)) cols = true ->
  header_loop n cols hm !! key = hm !! key.
Proof.
  induction cols as [|col cols IH]; intros n hm Hin H; simpl in *; [reflexivity|].
  apply andb_true_iff in H. destruct H as [Hc Hrest].
  rewrite (IH _ _ Hin Hrest), (header_step_lookup _ _ _ _ _ Hin).
  apply negb_true_iff in Hc. rewrite Hc. reflexivity.
Qed.

Lemma header_loop_last key dflt cols : forall i n hm col,
  In (key, dflt) canonical_fields ->
  nth_error cols i = Some col ->
  names key col = true ->
  forallb (fun col' => negb (names key col')) (skipn (S i) cols) = true ->
  header_loop n cols hm !! key = Some (n + i)%nat.
Proof.
  induction cols as [|c cols IH]; intros i n hm col Hin Hnth Hname Hlast.
  - destruct i; discriminate.
  - destruct i as [|i]; simpl in *.
    + injection Hnth as ->.
      rewrite (header_loop_unnamed _ _ _ _ _ Hin Hlast).
      rewrite (header_step_lookup _ _ _ _ _ Hin), Hname, Nat.add_0_r. reflexivity.
    + rewrite (IH i (S n) _ col Hin Hnth Hname Hlast). f_equal. lia.
Qed.

Lemma header_loop_origin cols : forall n hm k v,
  header_loop n cols hm !! k = Some v ->
  hm !! k = Some v
  \/ exists col, (n <= v)%nat /\ nth_error cols (v - n) = Some col
                 /\ recognized col = true.
Proof.
  induction cols as [|c cols IH]; intros n hm k v H; simpl in *; [left; exact H|].
  apply IH in H. destruct H as [H|(col & Hle & Hnth & Hrec)].
  - apply header_step_origin in H. destruct H as [H|[-> Hrec]]; [left; exact H|].
    right. exists c. rewrite Nat.sub_diag. split; [lia|]. split; [reflexivity|exact Hrec].
  - right. exists col. split; [lia|]. split; [|exact Hrec].
    replace (v - n)%nat with (S (v - S n)) by lia. exact Hnth.
Qed.

(** C6, refuted as stated: two labels can name the same field.  With the
    columns id and ID the first column names the field id, and the field is
    mapped to the second column. *)
Lemma recognized_column_not_always_mapped :
  ~ (forall (df : DataFrame) (i : nat) (col : cell) (key : string) (dflt : nat),
       In (key, dflt) canonical_fields ->
       nth_error (columns df) i = Some col ->
       names key col = true ->
       build_header_mapping df !! key = Some i).
Proof.
  intros H.
  specialize (H {| columns := [CStr "id"; CStr "ID"]; rows := [] |} 0%nat (CStr "id")
                "id" 0%nat (or_introl eq_refl) eq_refl eq_refl).
  vm_compute in H. discriminate H.
Qed.

(** C6, amended: for every canonical field,
    - the field is mapped to the last column whose normalized label names
      it (the last one wins when several columns do);
    - when no column names it, the mapping has no entry for it and the
      field is read at its fixed fallback index, or is the empty string
      when the row is too short;
    - a column whose label names no canonical field is the value of no
      entry of the mapping. *)
Theorem header_mapping_spec (df : DataFrame) :
  let hm := build_header_mapping df in
  (forall key dflt i col,
     In (key, dflt) canonical_fields ->
     nth_error (columns df) i = Some col ->
     names key col = true ->
     forallb (fun col' => negb (names key col')) (skipn (S i) (columns df)) = true ->
     hm !! key = Some i
     /\ forall row, cell_of hm row key dflt
                    = if (i <? length row)%nat then nth i row (CStr EmptyString)
                      else CStr EmptyString)
  /\ (forall key dflt,
        In (key, dflt) canonical_fields ->
        forallb (fun col => negb (names key col)) (columns df) = true ->
        hm !! key = None
        /\ forall row, cell_of hm row key dflt
                       = if (dflt <? length row)%nat then nth dflt row (CStr EmptyString)
                         else CStr EmptyString)
  /\ (forall i col,
        nth_error (columns df) i = Some col ->
        recognized col = false ->
        forall k, hm !! k <> Some i).
Proof.
  intros hm. unfold hm, build_header_mapping. split; [|split].
  - intros key dflt i col Hin Hnth Hname Hlast.
    pose proof (header_loop_last _ _ _ _ 0%nat ∅ _ Hin Hnth Hname Hlast) as H.
    simpl in H. split; [exact H|].
    intros row. unfold cell_of. rewrite H. reflexivity.
  - intros key dflt Hin Hnone.
    pose proof (header_loop_unnamed _ _ _ 0%nat ∅ Hin Hnone) as H.
    rewrite lookup_empty in H. split; [exact H|].
    intros row. unfold cell_of. rewrite H. reflexivity.
  - intros i col Hnth Hrec k Hk.
    apply header_loop_origin in Hk. destruct Hk as [Hk|(col' & _ & Hnth' & Hrec')].
    + rewrite lookup_empty in Hk. discriminate.
    + rewrite Nat.sub_0_r, Hnth in Hnth'. injection Hnth' as <-. congruence.
Qed.

Lemma header_mapping_spec_witness :
  build_header_mapping renamed_table !! "name" = Some 2%nat
  /\ build_header_mapping renamed_table !! "id" = None
  /\ cell_of (build_header_mapping renamed_table)
       [CInt 3760245210066; CStr "old"; CStr "new"] "id" 0 = CInt 3760245210066
  /\ (forall k, build_header_mapping renamed_table !! k <> Some 0%nat).
Proof.
  destruct (header_mapping_spec renamed_table) as (Ha & Hb & Hc).
  split; [|split; [|split]].
  - apply (Ha "name" 2%nat 2%nat (CStr " NAME ")); [|reflexivity..].
    simpl. right. right. left. reflexivity.
  - apply (Hb "id" 0%nat); [|reflexivity]. left. reflexivity.
  - destruct (Hb "id" 0%nat) as [_ H]; [left; reflexivity|reflexivity|].
    apply (H [CInt 3760245210066; CStr "old"; CStr "new"]).
  - apply (Hc 0%nat (CStr "barcode")); reflexivity.
Defined.


(** * Further properties of the code *)

(** ** What [parse_number] returns and raises *)

Lemma int_of_float_raises f e :
  PyNum.int_of_float f = Raise e ->
  (e = OverflowError /\ exists s, f = S754_infinity s)
  \/ (e = ValueError /\ f = S754_nan).
Proof.
  destruct f as [s|s| |s m x]; simpl; try discriminate; intros [= <-].
  - left. split; [reflexivity|]. exists s. reflexivity.
  - right. split; reflexivity.
Qed.

(** X1: in percentage mode nothing is raised: the result is the absent value or
    a float, whatever the value parsed. *)
Theorem parse_number_percent_never_raises (text : cell) :
  parse_number text true = Ok PNone
  \/ exists f, parse_number text true = Ok (PFloat f).
Proof.
  unfold parse_number.
  destruct (is_blank_or_nan text); [left; reflexivity|].
  simpl negb. cbv iota.
  destruct (Re.search_percent _) as [g|];
    (destruct (PyNum.float_of_str _) as [f|e] eqn:Hf;
     [right; exists (PyNum.truediv f (PyNum.float_of_Z 100)); reflexivity
     |left; apply float_of_str_raises in Hf; subst e; reflexivity]).
Qed.

(** X2: in year mode the one exception that leaves [parse_number] is
    OverflowError, and it does exactly when the value is not blank, the
    cleaned text holds no four digits standing alone, and [float] reads the
    cleaned text as an infinity. *)
Theorem parse_number_year_raises_iff (text : cell) (e : exn) :
  parse_number text false = Raise e
  <-> e = OverflowError
      /\ is_blank_or_nan text = false
      /\ first_year (clean_text (CStr (cell_str text)) false) = None
      /\ exists s, PyNum.float_of_str (clean_text (CStr (cell_str text)) false)
                   = Ok (S754_infinity s).
Proof.
  unfold parse_number.
  destruct (is_blank_or_nan text).
  { split; [discriminate|]. intros (_ & H & _). discriminate H. }
  simpl negb. cbv iota. rewrite search_year_first.
  destruct (first_year _) as [g|] eqn:Hy.
  { destruct (first_year_digits _ _ Hy) as [Hne Hd].
    rewrite (int_of_digits _ Hne Hd). simpl.
    split; [discriminate|]. intros (_ & _ & H & _). discriminate H. }
  destruct (PyNum.float_of_str _) as [f|e'] eqn:Hf.
  - simpl. destruct (PyNum.int_of_float f) as [z|e''] eqn:Hz.
    + simpl. split; [discriminate|].
      intros (_ & _ & _ & s & [= ->]). discriminate Hz.
    + destruct (int_of_float_raises _ _ Hz) as [[-> [s ->]]|[-> ->]]; simpl.
      * split.
        -- intros [= <-]. repeat split. exists s. reflexivity.
        -- intros (-> & _). reflexivity.
      * split; [discriminate|]. intros (_ & _ & _ & s & [= H]).
  - apply float_of_str_raises in Hf. subst e'. simpl.
    split; [discriminate|]. intros (_ & _ & _ & s & H). discriminate H.
Qed.

Lemma digit_value_range c :
  Unicode.isdigit c = true -> (0 <= PyNum.digit_value c <= 9)%Z.
Proof.
  destruct c as [[] [] [] [] [] [] [] []]; vm_compute; intros H;
    first [discriminate H | split; discriminate].
Qed.

Lemma digits_value_from_range s : forall acc,
  all_digits s = true -> (0 <= acc)%Z ->
  (acc * 10 ^ Z.of_nat (String.length s)
   <= PyNum.digits_value_from acc s
   < (acc + 1) * 10 ^ Z.of_nat (String.length s))%Z.
Proof.
  induction s as [|c s IH]; intros acc Hd Hacc.
  - simpl. lia.
  - simpl in Hd. apply andb_true_iff in Hd. destruct Hd as [Hc Hs].
    pose proof (digit_value_range c Hc) as Hr.
    cbn [PyNum.digits_value_from String.length].
    specialize (IH (10 * acc + PyNum.digit_value c)%Z Hs ltac:(lia)).
    rewrite Nat2Z.inj_succ, Z.pow_succ_r by lia.
    assert (Hp : (0 < 10 ^ Z.of_nat (String.length s))%Z) by (apply Z.pow_pos_nonneg; lia).
    nia.
Qed.

(** X3: in year mode the result is the absent value or an integer, and when the
    cleaned text holds four digits standing alone the integer lies between
    0 and 9999: a sign or further digits elsewhere in the text play no
    part. *)
Theorem parse_number_year_result (text : cell) (v : pyval) :
  parse_number text false = Ok v ->
  (v = PNone \/ exists z, v = PInt z)
  /\ (is_blank_or_nan text = false ->
      forall g, first_year (clean_text (CStr (cell_str text)) false) = Some g ->
                exists z, v = PInt z /\ (0 <= z <= 9999)%Z).
Proof.
  unfold parse_number.
  destruct (is_blank_or_nan text).
  { intros [= <-]. split; [left; reflexivity|discriminate]. }
  simpl negb. cbv iota. rewrite search_year_first.
  destruct (first_year _) as [g|] eqn:Hy.
  - destruct (first_year_digits _ _ Hy) as [Hne Hd].
    rewrite (int_of_digits _ Hne Hd). simpl. intros [= <-].
    split; [right; eexists; reflexivity|].
    intros _ g' [= <-]. eexists. split; [reflexivity|].
    assert (Hlen : String.length g = 4%nat).
    { unfold first_year in Hy.
      destruct (List.find _ _) as [i|] eqn:E; [|discriminate].
      injection Hy as <-. apply find_some in E. destruct E as [_ E].
      unfold year_at, year_at_from in E. rewrite !andb_true_iff in E.
      destruct E as [[[E _] _] _]. apply Nat.eqb_eq in E. exact E. }
    pose proof (digits_value_from_range g 0%Z Hd ltac:(lia)) as Hr.
    rewrite Hlen in Hr. unfold PyNum.digits_value. simpl in Hr. lia.
  - intros H. split; [|discriminate].
    destruct (PyNum.float_of_str _) as [f|e'] eqn:Hf.
    + simpl in H. destruct (PyNum.int_of_float f) as [z|e''] eqn:Hz.
      * simpl in H. injection H as <-. right. eexists. reflexivity.
      * destruct (int_of_float_raises _ _ Hz) as [[-> _]|[-> _]]; simpl in H;
          [discriminate|injection H as <-; left; reflexivity].
    + apply float_of_str_raises in Hf. subst e'. simpl in H.
      injection H as <-. left. reflexivity.
Qed.

Lemma parse_number_year_result_witness :
  parse_number (CStr "-2018 (12 months)") false = Ok (PInt 2018)
  /\ exists z, PInt 2018 = PInt z /\ (0 <= z <= 9999)%Z.
Proof.
  split; [vm_compute; reflexivity|].
  destruct (parse_number_year_result (CStr "-2018 (12 months)") (PInt 2018)) as [_ H];
    [vm_compute; reflexivity|].
  apply (H eq_refl "2018"). vm_compute. reflexivity.
Defined.

(** X4: a value whose text is blank or the word nan, and the integer 0, are
    parsed to the absent value in both modes. *)
Theorem parse_number_blank (text : cell) (is_float : bool) :
  all_space (cell_str text) = true \/ nan_any_case (cell_str text) = true
  \/ text = CInt 0 ->
  parse_number text is_float = Ok PNone.
Proof.
  intros H. unfold parse_number.
  assert (Hb : is_blank_or_nan text = true); [|rewrite Hb; reflexivity].
  unfold is_blank_or_nan. destruct H as [H | [H | ->]].
  - rewrite (strip_all_space _ H). simpl. rewrite orb_true_r. reflexivity.
  - rewrite (lower_nan_any_case _ H). simpl. rewrite orb_true_r. reflexivity.
  - reflexivity.
Qed.

Lemma parse_number_blank_witness :
  parse_number (CStr "  ") false = Ok PNone
  /\ parse_number CNaN true = Ok PNone
  /\ parse_number (CInt 0) false = Ok PNone.
Proof.
  split; [|split].
  - apply (parse_number_blank (CStr "  ") false). left. reflexivity.
  - apply (parse_number_blank CNaN true). right. left. reflexivity.
  - apply (parse_number_blank (CInt 0) false). right. right. reflexivity.
Defined.

(** ** The shape of cleaned text *)

Section Shape.
Import Unicode PyStr Re.

Lemma plain_spaces_sub s : forall b, plain_spaces (sub_spaces_from b s) = true.
Proof.
  induction s as [|c s IH]; intros b; simpl; [reflexivity|].
  destruct (isspace c) eqn:E.
  - destruct b; simpl; rewrite ?IH; reflexivity.
  - simpl. rewrite E, IH. reflexivity.
Qed.

Lemma no_double_space_sub s : forall b,
  no_double_space_from b (sub_spaces_from b s) = true.
Proof.
  induction s as [|c s IH]; intros b; simpl; [reflexivity|].
  destruct (isspace c) eqn:E.
  - destruct b; simpl; rewrite ?(IH true); reflexivity.
  - simpl. rewrite E. apply IH.
Qed.

Lemma rstripped_ends_nonspace s : rstrip s = s -> ends_nonspace s = true.
Proof.
  induction s as [|c s IH]; simpl; [reflexivity|].
  destruct (isspace c) eqn:E; simpl.
  - destruct (is_empty (rstrip s)) eqn:Es; [discriminate|].
    intros [= H]. rewrite H in Es. rewrite Es. apply IH, H.
  - intros [= H]. destruct (is_empty s); [reflexivity|apply IH, H].
Qed.

(** X5: in the whitespace-collapsing mode the text returned is made of words
    with one SPACE between them: it holds no other space character (no
    line break, no tab), no two spaces side by side, and neither starts nor
    ends with a space. *)
Theorem clean_text_single_spaced (text : cell) :
  single_spaced (clean_text text false) = true.
Proof.
  unfold clean_text. destruct (is_blank_or_nan text); [reflexivity|].
  unfold single_spaced. rewrite !andb_true_iff. repeat split.
  - apply plain_spaces_sub.
  - apply sub_spaces_starts_nonspace, strip_starts_nonspace.
  - apply rstripped_ends_nonspace, sub_spaces_from_rstripped, strip_rstripped.
  - apply no_double_space_sub.
Qed.

(** X6: in the line-preserving mode the text returned is empty or made of lines
    separated by LF, each of them not empty, stripped of spaces at both
    ends and free of CR. *)
Theorem clean_text_lines (text : cell) :
  clean_text text true = EmptyString
  \/ Forall clean_line (split LF (clean_text text true)).
Proof.
  unfold clean_text. destruct (is_blank_or_nan text); [left; reflexivity|].
  set (u := unwrap_quotes (cell_str text)).
  change (clean_lines u) with (join (String LF EmptyString) (kept_lines u)).
  pose proof (kept_lines_clean u) as Hk.
  destruct (kept_lines u) as [|l ls] eqn:E; [left; reflexivity|].
  right. rewrite split_join; [exact Hk|discriminate|].
  eapply Forall_impl; [|exact Hk]. intros ? (_ & _ & ? & _). assumption.
Qed.

Lemma no_space_rstrip s : no_space s = true -> rstrip s = s.
Proof.
  induction s as [|c s IH]; simpl; [reflexivity|].
  intros H. apply andb_true_iff in H. destruct H as [Hc Hs].
  apply negb_true_iff in Hc. rewrite Hc, (IH Hs). reflexivity.
Qed.

Lemma no_space_strip s : no_space s = true -> strip s = s.
Proof.
  intros H. apply strip_fixed; [|apply no_space_rstrip, H].
  destruct s as [|c s]; [reflexivity|]. simpl in *.
  apply andb_true_iff in H. tauto.
Qed.

Lemma no_space_sub_spaces s : forall b, no_space s = true -> sub_spaces_from b s = s.
Proof.
  induction s as [|c s IH]; intros b; simpl; [reflexivity|].
  intros H. apply andb_true_iff in H. destruct H as [Hc Hs].
  apply negb_true_iff in Hc. rewrite Hc, (IH false Hs). reflexivity.
Qed.

Lemma no_space_contains c s :
  isspace c = true -> no_space s = true -> contains c s = false.
Proof.
  intros Hc. induction s as [|d s IH]; simpl; [reflexivity|].
  intros H. apply andb_true_iff in H. destruct H as [Hd Hs].
  rewrite (IH Hs), orb_false_r.
  destruct (same d c) eqn:E; [|reflexivity].
  apply same_eq in E. subst d. rewrite Hc in Hd. discriminate.
Qed.

(** A string with no space character is left as it is by the last step of
    either mode. *)
Lemma no_space_fixed (s : string) (preserve_line_breaks : bool) :
  s <> EmptyString -> no_space s = true ->
  (if preserve_line_breaks then clean_lines s else sub_spaces (strip s)) = s.
Proof.
  intros Hne Hs. destruct preserve_line_breaks.
  - apply (clean_lines_fixed [s]). constructor; [|constructor].
    repeat split.
    + exact Hne.
    + apply no_space_strip, Hs.
    + apply no_space_contains; [reflexivity|exact Hs].
    + apply no_space_contains; [reflexivity|exact Hs].
  - rewrite (no_space_strip _ Hs). apply no_space_sub_spaces, Hs.
Qed.

Lemma no_space_not_blank s :
  s <> EmptyString -> no_space s = true -> all_space s = false.
Proof.
  destruct s as [|c s]; [congruence|]. simpl. intros _ Hs.
  apply andb_true_iff in Hs. destruct Hs as [Hc _].
  apply negb_true_iff in Hc. rewrite Hc. reflexivity.
Qed.

(** X7: a string with no space character in it, not wrapped in double quotes
    and not the word nan, is returned as it is, in both modes. *)
Theorem clean_text_no_space (s : string) (preserve_line_breaks : bool) :
  no_space s = true -> wrapped s = false -> nan_any_case s = false ->
  clean_text (CStr s) preserve_line_breaks = s.
Proof.
  intros Hs Hw Hn. destruct (String.eqb_spec s EmptyString) as [->|Hne]; [reflexivity|].
  unfold clean_text.
  rewrite (is_blank_or_nan_false _ (no_space_not_blank _ Hne Hs) Hn).
  simpl cell_str. unfold unwrap_quotes. rewrite Hw.
  apply no_space_fixed; assumption.
Qed.

Lemma clean_text_no_space_witness :
  clean_text (CStr "Ch.Margaux") true = "Ch.Margaux".
Proof. apply (clean_text_no_space "Ch.Margaux" true); reflexivity. Defined.

End Shape.

(** ** Integer cells *)

Section IntegerCells.
Import Unicode PyStr.

Lemma isdigit_other c :
  isdigit c = true ->
  isspace c = false /\ same c QUOTE = false
  /\ same c "n" = false /\ same c "N" = false.
Proof.
  destruct c as [[] [] [] [] [] [] [] []]; vm_compute; intros H;
    first [discriminate H | repeat split].
Qed.

Lemma all_digits_string_of_uint d : all_digits (NilEmpty.string_of_uint d) = true.
Proof. induction d; simpl; auto. Qed.

Lemma all_digits_no_space s : all_digits s = true -> no_space s = true.
Proof.
  induction s as [|c s IH]; simpl; [reflexivity|].
  intros H. apply andb_true_iff in H. destruct H as [Hc Hs].
  destruct (isdigit_other c Hc) as (-> & _). simpl. auto.
Qed.

(** The text of a positive integer is a non-empty string of digits. *)
Lemma string_of_pos_digits p :
  exists c s, NilZero.string_of_uint (Pos.to_uint p) = String c s
              /\ all_digits (String c s) = true.
Proof.
  pose proof (DecimalPos.Unsigned.to_uint_nonnil p) as Hnn.
  pose proof (all_digits_string_of_uint (Pos.to_uint p)) as Hd.
  unfold NilZero.string_of_uint.
  destruct (Pos.to_uint p) as [|u|u|u|u|u|u|u|u|u|u] eqn:E; [congruence|..];
    eexists _, _; (split; [reflexivity|exact Hd]).
Qed.

Lemma wrapped_head c s : same c QUOTE = false -> wrapped (String c s) = false.
Proof.
  intros Hq. unfold wrapped, startswith.
  change (String.prefix (String QUOTE EmptyString) (String c s))
    with (if ascii_dec QUOTE c then String.prefix EmptyString s else false).
  destruct (ascii_dec QUOTE c) as [<-|_]; [|reflexivity].
  rewrite same_refl in Hq. discriminate.
Qed.

(** A value that is true and whose text is not empty is cleaned as its
    text is. *)
Lemma clean_text_via_str text preserve_line_breaks :
  cell_truthy text = true -> cell_str text <> EmptyString ->
  clean_text text preserve_line_breaks
  = clean_text (CStr (cell_str text)) preserve_line_breaks.
Proof.
  intros Ht Hs. unfold clean_text, is_blank_or_nan. rewrite Ht. simpl.
  destruct (cell_str text); [congruence|reflexivity].
Qed.

(** X8: an integer cell is cleaned to its decimal text, in both modes, except
    the integer 0, which is cleaned to the empty string. *)
Theorem clean_text_integer (z : Z) (preserve_line_breaks : bool) :
  clean_text (CInt z) preserve_line_breaks
  = if Z.eqb z 0 then EmptyString else NilZero.string_of_int (Z.to_int z).
Proof.
  destruct z as [|p|p]; [reflexivity|..]; simpl Z.eqb; cbv iota.
  - destruct (string_of_pos_digits p) as (c & s & E & Hd).
    assert (Hstr : cell_str (CInt (Z.pos p)) = String c s) by exact E.
    rewrite clean_text_via_str; [|reflexivity|rewrite Hstr; discriminate].
    change (NilZero.string_of_int (Z.to_int (Z.pos p))) with (cell_str (CInt (Z.pos p))).
    rewrite Hstr.
    pose proof Hd as Hd'. simpl in Hd'. apply andb_true_iff in Hd'.
    destruct Hd' as [Hc _]. destruct (isdigit_other c Hc) as (_ & Hq & Hn1 & Hn2).
    assert (Hs : no_space (String c s) = true) by apply all_digits_no_space, Hd.
    assert (Hn : nan_any_case (String c s) = false)
      by (destruct s as [|? [|? [|]]]; simpl; rewrite ?Hn1, ?Hn2; reflexivity).
    assert (Hne : String c s <> EmptyString) by discriminate.
    unfold clean_text.
    rewrite (is_blank_or_nan_false _ (no_space_not_blank _ Hne Hs) Hn).
    simpl cell_str. unfold unwrap_quotes. rewrite (wrapped_head _ _ Hq).
    apply no_space_fixed; [discriminate|exact Hs].
  - destruct (string_of_pos_digits p) as (c & s & E & Hd).
    assert (Hstr : cell_str (CInt (Z.neg p)) = String "-" (String c s)).
    { simpl. unfold NilZero.string_of_int. rewrite E. reflexivity. }
    rewrite clean_text_via_str; [|reflexivity|rewrite Hstr; discriminate].
    change (NilZero.string_of_int (Z.to_int (Z.neg p))) with (cell_str (CInt (Z.neg p))).
    rewrite Hstr.
    assert (Hs : no_space (String "-" (String c s)) = true)
      by (apply all_digits_no_space in Hd; exact Hd).
    assert (Hn : nan_any_case (String "-" (String c s)) = false)
      by (destruct s as [|? [|]]; reflexivity).
    assert (Hne : String "-" (String c s) <> EmptyString) by discriminate.
    unfold clean_text.
    rewrite (is_blank_or_nan_false _ (no_space_not_blank _ Hne Hs) Hn).
    simpl cell_str. unfold unwrap_quotes.
    rewrite (wrapped_head "-" (String c s) eq_refl).
    apply no_space_fixed; [discriminate|exact Hs].
Qed.

End IntegerCells.

(** ** The records of [convert_csv_to_json] *)

Lemma parse_number_year_kind text v :
  parse_number text false = Ok v -> is_int_or_none v = true.
Proof.
  unfold parse_number. destruct (is_blank_or_nan text); [intros [= <-]; reflexivity|].
  simpl negb. cbv iota.
  destruct (Re.search_year _) as [g|].
  - destruct (PyNum.int_of_str g) as [z|[]]; simpl; intros [= <-]; reflexivity.
  - destruct (PyNum.float_of_str _) as [f|[]]; simpl;
      try (intros [= <-]; reflexivity); try discriminate.
    destruct (PyNum.int_of_float f) as [z|[]]; simpl;
      try (intros [= <-]; reflexivity); discriminate.
Qed.

Lemma parse_number_year_exn text e :
  parse_number text false = Raise e -> e = OverflowError.
Proof.
  unfold parse_number. destruct (is_blank_or_nan text); [discriminate|].
  simpl negb. cbv iota. rewrite search_year_first.
  destruct (first_year _) as [g|] eqn:Hy.
  - destruct (first_year_digits _ _ Hy) as [Hne Hd].
    rewrite (int_of_digits _ Hne Hd). discriminate.
  - destruct (PyNum.float_of_str _) as [f|e'] eqn:Hf.
    + simpl. destruct f; simpl; try discriminate. intros [= <-]. reflexivity.
    + apply float_of_str_raises in Hf. subst e'. discriminate.
Qed.

Lemma parse_number_percent_kind text :
  exists v, parse_number text true = Ok v /\ is_float_or_none v = true.
Proof.
  unfold parse_number. destruct (is_blank_or_nan text); [exists PNone; auto|].
  simpl negb. cbv iota.
  destruct (Re.search_percent _) as [g|];
    (destruct (PyNum.float_of_str _) as [f|e] eqn:Hf;
     [eexists; split; reflexivity
     |apply float_of_str_raises in Hf; subst e; exists PNone; auto]).
Qed.

Lemma make_wine_conforms hm row wine :
  make_wine hm row = Ok wine -> conforms wine wine_schema = true.
Proof.
  unfold make_wine, mbind, result_bind.
  destruct (parse_number (cell_of hm row "id" 0) false) as [v1|] eqn:H1; [|discriminate].
  destruct (parse_number (cell_of hm row "referralId" 1) false) as [v2|] eqn:H2;
    [|discriminate].
  destruct (parse_number (cell_of hm row "harvest" 8) false) as [v3|] eqn:H3;
    [|discriminate].
  destruct (parse_number_percent_kind (cell_of hm row "alcoholLevel" 9)) as (v4 & -> & H4).
  intros [= <-]. simpl.
  rewrite (parse_number_year_kind _ _ H1), (parse_number_year_kind _ _ H2),
    (parse_number_year_kind _ _ H3), H4. reflexivity.
Qed.

Lemma map_result_In {A B} (f : A -> result B) l ys y :
  map_result f l = Ok ys -> In y ys -> exists x, In x l /\ f x = Ok y.
Proof.
  revert ys. induction l as [|x l IH]; simpl; intros ys.
  - intros [= <-] [].
  - unfold mbind, result_bind.
    destruct (f x) as [y0|] eqn:Hx; [|discriminate].
    destruct (map_result f l) as [ys0|]; [|discriminate].
    intros [= <-] [<-|Hin].
    + exists x. auto.
    + destruct (IH _ eq_refl Hin) as (x' & ? & ?). exists x'. auto.
Qed.

(** Every record found in the output comes from a row of the table. *)
Lemma convert_output_origin df out w :
  convert_csv_to_json df = Ok out -> In w out ->
  exists row wine,
    In row (rows df) /\ make_wine (build_header_mapping df) row = Ok wine
    /\ w = PDict wine /\ retained wine = true.
Proof.
  unfold convert_csv_to_json. rewrite row_loop_spec.
  destruct (map_result _ _) as [ws|] eqn:Hm; [|discriminate].
  intros [= <-]. simpl. rewrite in_map_iff.
  intros (wine & <- & Hin). apply filter_In in Hin. destruct Hin as [Hin Hr].
  destruct (map_result_In _ _ _ _ Hm Hin) as (row & Hrow & Hw).
  exists row, wine. auto.
Qed.

(** X11: every record of the list returned is a dict with the fifteen keys of
    the dict literal, in its order: id, referralId and harvest hold an
    integer or the absent value, alcoholLevel a float or the absent value,
    price and importedBy the absent value, the other fields a string. *)
Theorem convert_output_schema (df : DataFrame) (out : list pyval) (w : pyval) :
  convert_csv_to_json df = Ok out -> In w out ->
  exists wine, w = PDict wine /\ conforms wine wine_schema = true.
Proof.
  intros Hc Hin.
  destruct (convert_output_origin _ _ _ Hc Hin) as (row & wine & _ & Hw & -> & _).
  exists wine. split; [reflexivity|]. apply (make_wine_conforms _ _ _ Hw).
Qed.

Lemma convert_output_schema_witness :
  exists out wine,
    convert_csv_to_json zero_id_table = Ok out
    /\ In (PDict wine) out /\ conforms wine wine_schema = true.
Proof.
  assert (Hc : exists out w, convert_csv_to_json zero_id_table = Ok out /\ In w out).
  { eexists _, _. split; [vm_compute; reflexivity|]. left. reflexivity. }
  destruct Hc as (out & w & Hc & Hin).
  destruct (convert_output_schema zero_id_table out w Hc Hin) as (wine & -> & Hs).
  exists out, wine. auto.
Defined.

(** X12: a row whose other fields raise nothing is appended exactly when its
    cleaned name is not empty or its id parses to an integer other than 0;
    otherwise the list is left as it was. *)
Theorem row_kept_iff (hm : gmap string nat) (wines : list pyval) (row : list cell)
    (wine : list (string * pyval)) :
  make_wine hm row = Ok wine ->
  let kept :=
    clean_text (cell_of hm row "name" 2) false <> EmptyString
    \/ exists z, z <> 0%Z /\ parse_number (cell_of hm row "id" 0) false = Ok (PInt z) in
  (kept -> row_step hm wines row = Ok (wines ++ [PDict wine])%list)
  /\ (~ kept -> row_step hm wines row = Ok wines).
Proof.
  intros Hw kept. rewrite row_step_spec, Hw.
  destruct (make_wine_fields _ _ _ Hw) as [Gid Gname].
  assert (Hr : retained wine = true <-> kept).
  { unfold retained, has_name_or_id, mbind, result_bind, kept.
    rewrite Gname. simpl.
    destruct (clean_text (cell_of hm row "name" 2) false) as [|c s] eqn:En; simpl.
    - rewrite Gid.
      destruct (parse_number (cell_of hm row "id" 0) false) as [v|e] eqn:Ep.
      + pose proof (parse_number_year_kind _ _ Ep) as Hk.
        destruct v as [|z| | | |]; try discriminate Hk; simpl.
        * split; [discriminate|]. intros [H|(z & _ & [=])]. congruence.
        * destruct (Z.eqb_spec z 0) as [->|Hz]; simpl.
          -- split; [discriminate|]. intros [H|(z & Hz & [= <-])]; congruence.
          -- split; [|reflexivity]. intros _. right. exists z. auto.
      + revert Hw. unfold make_wine, mbind, result_bind. rewrite Ep. discriminate.
    - split; [|reflexivity]. intros _. left. discriminate. }
  split.
  - intros Hk. apply Hr in Hk. rewrite Hk. reflexivity.
  - intros Hk. destruct (retained wine); [exfalso; apply Hk, Hr; reflexivity|reflexivity].
Qed.

Lemma row_kept_iff_witness :
  (exists wine, row_step ∅ [] [CStr "7"; CNaN; CNaN] = Ok [PDict wine]
                /\ getitem wine "id" = Ok (PInt 7))
  /\ row_step ∅ [] [CStr "x"; CNaN; CNaN] = Ok [].
Proof.
  split.
  - destruct (make_wine ∅ [CStr "7"; CNaN; CNaN]) as [wine|] eqn:Hw;
      [|vm_compute in Hw; discriminate Hw].
    exists wine. split.
    + apply (proj1 (row_kept_iff ∅ [] [CStr "7"; CNaN; CNaN] wine Hw)).
      right. exists 7%Z. split; [discriminate|vm_compute; reflexivity].
    + vm_compute in Hw. injection Hw as <-. reflexivity.
  - destruct (make_wine ∅ [CStr "x"; CNaN; CNaN]) as [wine|] eqn:Hw;
      [|vm_compute in Hw; discriminate Hw].
    apply (proj2 (row_kept_iff ∅ [] [CStr "x"; CNaN; CNaN] wine Hw)).
    intros [H|(z & _ & H)]; [apply H; reflexivity|vm_compute in H; discriminate H].
Defined.

(** ** Exceptions that leave [convert_csv_to_json] *)

Lemma make_wine_raises_iff hm row e :
  make_wine hm row = Raise e <-> e = OverflowError /\ year_field_raises hm row.
Proof.
  unfold make_wine, year_field_raises, mbind, result_bind.
  destruct (parse_number (cell_of hm row "id" 0) false) as [v1|e1] eqn:H1.
  2:{ pose proof (parse_number_year_exn _ _ H1) as ->.
      split; [intros [= <-]; auto|intros [-> _]; reflexivity]. }
  destruct (parse_number (cell_of hm row "referralId" 1) false) as [v2|e2] eqn:H2.
  2:{ pose proof (parse_number_year_exn _ _ H2) as ->.
      split; [intros [= <-]; auto|intros [-> _]; reflexivity]. }
  destruct (parse_number (cell_of hm row "harvest" 8) false) as [v3|e3] eqn:H3.
  2:{ pose proof (parse_number_year_exn _ _ H3) as ->.
      split; [intros [= <-]; auto|intros [-> _]; reflexivity]. }
  destruct (parse_number_percent_kind (cell_of hm row "alcoholLevel" 9)) as (v4 & -> & _).
  split; [discriminate|]. intros [_ [H|[H|H]]]; discriminate H.
Qed.

Lemma map_result_raises_iff {A B} (f : A -> result B) l e :
  (forall x e', f x = Raise e' -> e' = e) ->
  (map_result f l = Raise e <-> exists x, In x l /\ f x = Raise e).
Proof.
  intros Hone. induction l as [|x l IH]; simpl.
  - split; [discriminate|]. intros (x & [] & _).
  - unfold mbind, result_bind. destruct (f x) as [y|e'] eqn:Hx.
    + destruct (map_result f l) as [ys|e''].
      * split; [discriminate|]. intros (x' & [<-|Hin] & Hr); [congruence|].
        assert (Hex : exists x, In x l /\ f x = Raise e) by eauto.
        apply IH in Hex. discriminate Hex.
      * split.
        -- intros [= ->]. destruct (proj1 IH eq_refl) as (x' & Hin & Hr). eauto.
        -- intros (x' & [<-|Hin] & Hr); [congruence|].
           assert (Hex : exists x, In x l /\ f x = Raise e) by eauto.
           apply IH in Hex. exact Hex.
    + pose proof (Hone _ _ Hx) as ->. split; [eauto|reflexivity].
Qed.

Lemma map_result_exn {A B} (f : A -> result B) l e0 e :
  (forall x e', f x = Raise e' -> e' = e0) -> map_result f l = Raise e -> e = e0.
Proof.
  intros Hone. induction l as [|x l IH]; simpl; [discriminate|].
  unfold mbind, result_bind. destruct (f x) as [y|e'] eqn:Hx.
  - destruct (map_result f l); [discriminate|]. intros [= ->]. apply IH. reflexivity.
  - intros [= ->]. apply (Hone _ _ Hx).
Qed.

(** X13: the one exception that leaves [convert_csv_to_json] is OverflowError,
    and it does exactly when [parse_number] raises it on the id, the
    referralId or the harvest cell of some row: no KeyError, ValueError or
    TypeError comes out, and no list is returned when one cell is such. *)
Theorem convert_raises_iff (df : DataFrame) (e : exn) :
  convert_csv_to_json df = Raise e
  <-> e = OverflowError
      /\ exists row, In row (rows df)
                     /\ year_field_raises (build_header_mapping df) row.
Proof.
  unfold convert_csv_to_json. rewrite row_loop_spec.
  set (hm := build_header_mapping df).
  assert (Hone : forall row e', make_wine hm row = Raise e' -> e' = OverflowError).
  { intros row e' H. apply make_wine_raises_iff in H. tauto. }
  pose proof (map_result_raises_iff (make_wine hm) (rows df) OverflowError Hone) as Hm.
  destruct (map_result (make_wine hm) (rows df)) as [ws|e'] eqn:E.
  - split; [discriminate|]. intros [_ (row & Hin & Hr)].
    assert (Hex : exists x, In x (rows df) /\ make_wine hm x = Raise OverflowError).
    { exists row. split; [exact Hin|]. apply make_wine_raises_iff. auto. }
    apply Hm in Hex. discriminate Hex.
  - pose proof (map_result_exn _ _ _ _ Hone E) as ->.
    split.
    + intros [= <-]. split; [reflexivity|].
      destruct (proj1 Hm eq_refl) as (row & Hin & Hr).
      exists row. split; [exact Hin|]. apply make_wine_raises_iff in Hr. tauto.
    + intros [-> _]. reflexivity.
Qed.

(** ** Blank rows *)

Lemma cell_of_blank hm row key dflt :
  Forall (fun c => is_blank_or_nan c = true) row ->
  is_blank_or_nan (cell_of hm row key dflt) = true.
Proof.
  intros H. unfold cell_of.
  destruct (_ <? _)%nat eqn:E; [|reflexivity].
  apply Nat.ltb_lt in E. rewrite List.Forall_forall in H.
  apply H, nth_In, E.
Qed.

Lemma parse_number_guard text is_float :
  is_blank_or_nan text = true -> parse_number text is_float = Ok PNone.
Proof. intros H. unfold parse_number. rewrite H. reflexivity. Qed.

Lemma clean_text_guard text preserve_line_breaks :
  is_blank_or_nan text = true -> clean_text text preserve_line_breaks = EmptyString.
Proof. intros H. unfold clean_text. rewrite H. reflexivity. Qed.

(** X14: a row whose cells are all blank (empty or space only, nan, NaN, or the
    integer 0), and so a row with no cell at all, raises nothing and is not
    appended, whatever the header mapping. *)
Theorem blank_row_dropped (hm : gmap string nat) (wines : list pyval) (row : list cell) :
  Forall (fun c => is_blank_or_nan c = true) row ->
  row_step hm wines row = Ok wines.
Proof.
  intros H. unfold row_step, make_wine.
  rewrite !(parse_number_guard _ _ (cell_of_blank hm row _ _ H)).
  rewrite !(clean_text_guard _ _ (cell_of_blank hm row _ _ H)).
  reflexivity.
Qed.

Lemma blank_row_dropped_witness :
  row_step ∅ [] [CNaN; CStr "  "; CInt 0; CStr "NaN"] = Ok []
  /\ row_step ∅ [] [] = Ok [].
Proof.
  split.
  - apply (blank_row_dropped ∅ [] [CNaN; CStr "  "; CInt 0; CStr "NaN"]).
    repeat constructor.
  - apply (blank_row_dropped ∅ [] []). constructor.
Defined.

(** ** The entries of the header mapping *)

Lemma header_step_entry hm i col k v :
  header_step hm i col !! k = Some v ->
  hm !! k = Some v
  \/ (v = i /\ names k col = true /\ exists dflt, In (k, dflt) canonical_fields).
Proof.
  unfold header_step, names, normalize.
  generalize (PyStr.lower (clean_text col false)) as c. intros c.
  repeat match goal with
  | |- context [if String.eqb c ?key then _ else _] =>
      destruct (String.eqb_spec c key);
      [ subst c; intros H; apply lookup_insert_Some in H;
        destruct H as [[<- <-]|[_ H]];
        [ right; split; [reflexivity|]; split; [reflexivity|];
          eexists; simpl; repeat (first [left; reflexivity | right])
        | left; exact H ]
      | ]
  end.
  intros H. left. exact H.
Qed.

Lemma header_loop_entry cols : forall n hm k v,
  header_loop n cols hm !! k = Some v ->
  hm !! k = Some v
  \/ exists col, (n <= v)%nat /\ nth_error cols (v - n) = Some col
                 /\ names k col = true
                 /\ exists dflt, In (k, dflt) canonical_fields.
Proof.
  induction cols as [|c cols IH]; intros n hm k v H; simpl in *; [left; exact H|].
  apply IH in H. destruct H as [H|(col & Hle & Hnth & Hrec)].
  - apply header_step_entry in H. destruct H as [H|(-> & Hn & Hk)]; [left; exact H|].
    right. exists c. rewrite Nat.sub_diag. split; [lia|]. split; [reflexivity|]. auto.
  - right. exists col. split; [lia|]. split; [|exact Hrec].
    replace (v - n)%nat with (S (v - S n)) by lia. exact Hnth.
Qed.

(** X15: every entry of the header mapping has a canonical field name for key
    and, for value, the index of a column of the table whose normalized
    label names that field: no other key is ever set, and no index points
    outside the columns. *)
Theorem header_mapping_entries (df : DataFrame) (k : string) (v : nat) :
  build_header_mapping df !! k = Some v ->
  (v < length (columns df))%nat
  /\ exists col dflt,
       nth_error (columns df) v = Some col
       /\ names k col = true
       /\ In (k, dflt) canonical_fields.
Proof.
  unfold build_header_mapping. intros H.
  apply header_loop_entry in H. destruct H as [H|(col & _ & Hnth & Hn & dflt & Hk)].
  - rewrite lookup_empty in H. discriminate.
  - rewrite Nat.sub_0_r in Hnth. split.
    + apply nth_error_Some. congruence.
    + exists col, dflt. auto.
Qed.

Lemma header_mapping_entries_witness :
  (2 < length (columns renamed_table))%nat
  /\ exists col dflt,
       nth_error (columns renamed_table) 2 = Some col
       /\ names "name" col = true
       /\ In ("name", dflt) canonical_fields.
Proof.
  apply (header_mapping_entries renamed_table "name" 2). vm_compute. reflexivity.
Defined.

(** ** The sign of a percentage *)

Section Sign.
Import Unicode PyNum Re.

Lemma binary_round_aux_sign mx ex lx :
  is_negative (binary_round_aux prec emax false mx ex lx) = false.
Proof.
  unfold binary_round_aux.
  destruct (shr_fexp prec emax mx ex lx) as [mrs e'].
  destruct (shr_fexp prec emax _ e' loc_Exact) as [mrs2 e2].
  destruct (shr_m mrs2); [reflexivity| |reflexivity].
  destruct (Z.leb e2 (Z.sub emax prec)); reflexivity.
Qed.

Lemma of_decimal_sign m e : is_negative (of_decimal false m e) = false.
Proof.
  unfold of_decimal. destruct m as [|p|p]; [reflexivity| |reflexivity].
  destruct (0 <=? e)%Z.
  - unfold binary_round. destruct (shl_align _ _ _) as [mz ez].
    apply binary_round_aux_sign.
  - unfold SFdiv. destruct (SFdiv_core_binary _ _ _ _ _ _) as [[mz ez] lz].
    apply binary_round_aux_sign.
Qed.

Lemma truediv_100_sign x :
  is_negative x = false -> is_negative (truediv x (float_of_Z 100)) = false.
Proof.
  change (float_of_Z 100) with (S754_finite false 7036874417766400 (-46)).
  unfold truediv, SFdiv. destruct x as [s|s| |s m e]; simpl is_negative;
    try (intros ->; reflexivity); [reflexivity|].
  intros ->. destruct (SFdiv_core_binary _ _ _ _ _ _) as [[mz ez] lz].
  apply binary_round_aux_sign.
Qed.

Lemma isnumchar_facts c :
  isnumchar c = true ->
  in_range 0 127 c = true /\ c_isspace c = false
  /\ same c "-" = false /\ same c "+" = false.
Proof.
  destruct c as [[] [] [] [] [] [] [] []]; vm_compute; intros H;
    first [discriminate H | repeat split].
Qed.

Lemma all_numchar_is_ascii g : all_numchar g = true -> is_ascii g = true.
Proof.
  induction g as [|c g IH]; simpl; [reflexivity|].
  intros H. apply andb_true_iff in H. destruct H as [Hc Hg].
  destruct (isnumchar_facts c Hc) as (-> & _). auto.
Qed.

Lemma all_numchar_c_rstrip g : all_numchar g = true -> c_rstrip g = g.
Proof.
  induction g as [|c g IH]; simpl; [reflexivity|].
  intros H. apply andb_true_iff in H. destruct H as [Hc Hg].
  destruct (isnumchar_facts c Hc) as (_ & -> & _). rewrite (IH Hg). reflexivity.
Qed.

(** [float] of a run of digits and points is never negative. *)
Lemma float_of_numrun_sign g x :
  all_numchar g = true -> float_of_str g = Ok x -> is_negative x = false.
Proof.
  intros Hg. unfold float_of_str, to_ascii.
  rewrite (all_numchar_is_ascii _ Hg).
  assert (Hl : c_lstrip g = g /\ sign g = (false, g)).
  { destruct g as [|c g]; [split; reflexivity|].
    simpl in Hg. apply andb_true_iff in Hg. destruct Hg as [Hc _].
    destruct (isnumchar_facts c Hc) as (_ & Hs & Hm & Hp).
    simpl. rewrite Hs, Hm, Hp. split; reflexivity. }
  destruct Hl as [-> Hsign]. rewrite (all_numchar_c_rstrip _ Hg), Hsign.
  destruct (_ || _); [intros [= <-]; reflexivity|].
  destruct (String.eqb _ _); [intros [= <-]; reflexivity|].
  destruct (floatnumber g) as [[[ip fp] ex]|]; [|discriminate].
  intros [= <-]. apply of_decimal_sign.
Qed.

Lemma all_numchar_greedy s : all_numchar (greedy isnumchar s) = true.
Proof.
  induction s as [|c s IH]; simpl; [reflexivity|].
  destruct (isnumchar c) eqn:E; [|reflexivity]. simpl. rewrite E. exact IH.
Qed.

Lemma search_percent_found s :
  no_numchar s = false -> exists g, search_percent s = Some g /\ all_numchar g = true.
Proof.
  induction s as [|c s IH]; simpl; [discriminate|].
  destruct (isnumchar c) eqn:E; simpl.
  - intros _. eexists. split; [reflexivity|].
    cbn [all_numchar]. rewrite E. apply all_numchar_greedy.
  - exact IH.
Qed.

(** X16: when the cleaned text holds a digit or a point, the float returned in
    percentage mode is never negative: a minus sign before the number is
    not part of the run taken. *)
Theorem parse_percent_not_negative (text : cell) (f : spec_float) :
  no_numchar (clean_text (CStr (cell_str text)) false) = false ->
  parse_number text true = Ok (PFloat f) ->
  is_negative f = false.
Proof.
  intros Hn. unfold parse_number.
  destruct (is_blank_or_nan text); [discriminate|].
  simpl negb. cbv iota.
  destruct (search_percent_found _ Hn) as (g & -> & Hg).
  destruct (float_of_str g) as [x|e] eqn:Hx.
  - simpl. intros [= <-]. apply truediv_100_sign, (float_of_numrun_sign g x Hg Hx).
  - apply float_of_str_raises in Hx. subst e. discriminate.
Qed.

Lemma parse_percent_not_negative_witness :
  parse_number (CStr "-5%") true = Ok (PFloat (S754_finite false 7205759403792794 (-57)))
  /\ is_negative (S754_finite false 7205759403792794 (-57)) = false.
Proof.
  split; [vm_compute; reflexivity|].
  apply (parse_percent_not_negative (CStr "-5%")); vm_compute; reflexivity.
Defined.

End Sign.

(** ** The figures of [main] *)

Lemma map_result_length {A B} (f : A -> result B) l ys :
  map_result f l = Ok ys -> length ys = length l.
Proof.
  revert ys. induction l as [|x l IH]; simpl; intros ys.
  - intros [= <-]. reflexivity.
  - unfold mbind, result_bind. destruct (f x); [|discriminate].
    destruct (map_result f l) as [ys0|]; [|discriminate].
    intros [= <-]. simpl. rewrite (IH _ eq_refl). reflexivity.
Qed.

(** X18: whenever the conversion of a table succeeds, no more wines are returned
    than the table has rows, the figure Total Items is the number of wines
    plus 7, and the sample shown is the list of the first two wines, or of
    all of them when there are fewer. *)
Theorem convert_table_figures (df : DataFrame) (wines : list pyval) (doc : pyval) :
  convert_table df = Ok (wines, doc) ->
  (length wines <= length (rows df))%nat
  /\ total_items doc = Ok (Z.of_nat (length wines) + 7)%Z
  /\ wine_sample doc = Ok (PList (firstn 2 wines)).
Proof.
  unfold convert_table, mbind, result_bind.
  destruct (convert_csv_to_json df) as [ws|] eqn:Hc; [|discriminate].
  intros [= -> <-]. split; [|split].
  - revert Hc. unfold convert_csv_to_json. rewrite row_loop_spec.
    destruct (map_result _ _) as [rs|] eqn:Hm; [|discriminate].
    intros [= <-]. simpl. rewrite length_map, <- (map_result_length _ _ _ Hm).
    apply filter_length_le.
  - unfold total_items, create_full_json_structure, mbind, result_bind. simpl.
    f_equal. lia.
  - unfold wine_sample, create_full_json_structure, mbind, result_bind. simpl.
    destruct (2 <=? Z.of_nat (length wines))%Z eqn:E; [reflexivity|].
    apply Z.leb_gt in E. rewrite firstn_all2 by lia. reflexivity.
Qed.

Lemma convert_table_figures_witness :
  exists wines doc,
    convert_table zero_id_table = Ok (wines, doc)
    /\ total_items doc = Ok 8%Z
    /\ wine_sample doc = Ok (PList wines).
Proof.
  destruct (convert_table zero_id_table) as [[wines doc]|] eqn:E;
    [|vm_compute in E; discriminate E].
  destruct (convert_table_figures zero_id_table wines doc E) as (_ & Ht & Hs).
  exists wines, doc. split; [reflexivity|].
  vm_compute in E. injection E as <- <-. split; [exact Ht|exact Hs].
Defined.

(** ** The two modes of [clean_text] side by side *)

Section Words.
Import Unicode PyStr Re.

Lemma filter_idem {A} (p : A -> bool) l :
  List.filter p (List.filter p l) = List.filter p l.
Proof.
  induction l as [|x l IH]; simpl; [reflexivity|].
  destruct (p x) eqn:E; simpl; rewrite ?E, IH; reflexivity.
Qed.

Lemma chunks_not_nil s : chunks s <> [].
Proof.
  destruct s as [|c s]; simpl; [discriminate|].
  destruct (isspace c); [discriminate|]. destruct (chunks s); discriminate.
Qed.

Lemma wcons_app c l r : l <> [] -> wcons c (l ++ r) = (wcons c l ++ r)%list.
Proof. destruct l; [congruence|reflexivity]. Qed.

Lemma words_first_and_words s : words_of s = List.filter nonempty (first_and_words s).
Proof.
  unfold words_of, first_and_words. destruct (chunks s) as [|w ws]; [reflexivity|].
  simpl. rewrite filter_idem. reflexivity.
Qed.

(** The first piece and the words of [String c s] are those of [s] with
    [c] in front. *)
Lemma first_and_words_cons c s :
  first_and_words (String c s)
  = if isspace c then EmptyString :: words_of s else wcons c (first_and_words s).
Proof.
  unfold first_and_words, words_of. simpl.
  destruct (isspace c); [reflexivity|].
  pose proof (chunks_not_nil s) as H.
  destruct (chunks s) as [|w ws]; [congruence|reflexivity].
Qed.

Lemma words_space c s : isspace c = true -> words_of (String c s) = words_of s.
Proof. intros H. unfold words_of. simpl. rewrite H. reflexivity. Qed.

Lemma words_lstrip s : words_of (lstrip s) = words_of s.
Proof.
  induction s as [|c s IH]; simpl; [reflexivity|].
  destruct (isspace c) eqn:E; [|reflexivity].
  rewrite (words_space _ _ E). exact IH.
Qed.

Lemma chunks_rstrip s :
  exists k, chunks s = (chunks (rstrip s) ++ repeat EmptyString k)%list.
Proof.
  induction s as [|c s [k IH]]; simpl.
  - exists 0%nat. reflexivity.
  - destruct (isspace c) eqn:E; simpl.
    + destruct (rstrip s) as [|d r] eqn:Er; simpl.
      * exists (S k). rewrite IH. reflexivity.
      * exists k. rewrite E, IH. reflexivity.
    + exists k. rewrite E, IH. apply wcons_app, chunks_not_nil.
Qed.

Lemma filter_repeat_empty k :
  List.filter nonempty (repeat EmptyString k) = [].
Proof. induction k; simpl; auto. Qed.

Lemma words_rstrip s : words_of (rstrip s) = words_of s.
Proof.
  unfold words_of. destruct (chunks_rstrip s) as [k ->].
  rewrite filter_app, filter_repeat_empty, app_nil_r. reflexivity.
Qed.

Lemma words_strip s : words_of (strip s) = words_of s.
Proof. unfold strip. rewrite words_rstrip. apply words_lstrip. Qed.

Lemma first_and_words_sub_newlines_aux s :
  first_and_words (sub_newlines s) = first_and_words s
  /\ forall c, first_and_words (sub_newlines (String c s)) = first_and_words (String c s).
Proof.
  induction s as [|d s [IH1 IH2]].
  - split; [reflexivity|]. intros c. simpl.
    destruct (same c CR) eqn:E; [|reflexivity].
    apply same_eq in E. subst c. reflexivity.
  - split; [apply IH2|]. intros c.
    change (sub_newlines (String c (String d s))) with
      (if same c CR
       then String LF (if same d LF then sub_newlines s else sub_newlines (String d s))
       else String c (sub_newlines (String d s))).
    destruct (same c CR) eqn:E.
    + apply same_eq in E. subst c.
      rewrite !first_and_words_cons. change (isspace LF) with true.
      change (isspace CR) with true. cbv iota. f_equal.
      destruct (same d LF) eqn:Ed.
      * apply same_eq in Ed. subst d. rewrite (words_space LF s eq_refl).
        rewrite !words_first_and_words, IH1. reflexivity.
      * rewrite !words_first_and_words, IH2. reflexivity.
    + rewrite !(first_and_words_cons c), !words_first_and_words, IH2. reflexivity.
Qed.

Lemma words_sub_newlines s : words_of (sub_newlines s) = words_of s.
Proof.
  rewrite !words_first_and_words.
  rewrite (proj1 (first_and_words_sub_newlines_aux s)). reflexivity.
Qed.

Lemma chunks_split sep t :
  isspace sep = true -> concat (List.map chunks (split sep t)) = chunks t.
Proof.
  intros Hsep. induction t as [|c t IH]; simpl; [reflexivity|].
  destruct (same c sep) eqn:E.
  - apply same_eq in E. subst c. rewrite Hsep. simpl. rewrite IH. reflexivity.
  - destruct (split sep t) as [|l ls]; simpl in *.
    + pose proof (chunks_not_nil t) as H. rewrite <- IH in H. congruence.
    + rewrite <- IH. destruct (isspace c); [reflexivity|].
      symmetry. apply wcons_app, chunks_not_nil.
Qed.

Lemma filter_concat {A} (p : A -> bool) ls :
  List.filter p (concat ls) = concat (List.map (List.filter p) ls).
Proof.
  induction ls as [|l ls IH]; simpl; [reflexivity|].
  rewrite filter_app, IH. reflexivity.
Qed.

Lemma words_split sep t :
  isspace sep = true -> concat (List.map words_of (split sep t)) = words_of t.
Proof.
  intros Hsep. unfold words_of at 2. rewrite <- (chunks_split sep t Hsep).
  rewrite filter_concat, List.map_map. reflexivity.
Qed.

Lemma chunks_app_space a sp b :
  isspace sp = true -> chunks (a ++ String sp b) = (chunks a ++ chunks b)%list.
Proof.
  intros Hsp. induction a as [|c a IH]; simpl.
  - rewrite Hsp. reflexivity.
  - rewrite IH. destruct (isspace c); [reflexivity|].
    apply wcons_app, chunks_not_nil.
Qed.

Lemma words_join sep ls :
  isspace sep = true ->
  words_of (join (String sep EmptyString) ls) = concat (List.map words_of ls).
Proof.
  intros Hsep. unfold join. induction ls as [|l ls IH]; [reflexivity|].
  destruct ls as [|l' ls].
  - simpl. rewrite app_nil_r. reflexivity.
  - change (String.concat (String sep EmptyString) (l :: l' :: ls)) with
      (l ++ String sep (String.concat (String sep EmptyString) (l' :: ls))).
    unfold words_of at 1. rewrite (chunks_app_space _ _ _ Hsep), filter_app.
    fold (words_of l). fold (words_of (String.concat (String sep EmptyString) (l' :: ls))).
    rewrite IH. reflexivity.
Qed.

Lemma words_kept ls :
  concat (List.map words_of (List.filter nonempty (List.map strip ls)))
  = concat (List.map words_of ls).
Proof.
  induction ls as [|l ls IH]; simpl; [reflexivity|].
  rewrite <- (words_strip l).
  destruct (strip l) as [|c s] eqn:E; simpl.
  - exact IH.
  - rewrite IH. reflexivity.
Qed.

Lemma words_nil_iff s : words_of s = [] <-> all_space s = true.
Proof.
  induction s as [|c s IH]; [split; reflexivity|].
  destruct (isspace c) eqn:E.
  - rewrite (words_space _ _ E). simpl. rewrite E. exact IH.
  - simpl. rewrite E. split; [|discriminate].
    unfold words_of. simpl. rewrite E.
    pose proof (chunks_not_nil s) as H.
    destruct (chunks s); [congruence|]. discriminate.
Qed.

Lemma concat_wcons c ws :
  ws <> [] -> String.concat space_sep (wcons c ws) = String c (String.concat space_sep ws).
Proof. destruct ws as [|w [|w' ws]]; [congruence|reflexivity..]. Qed.

(** On a string that ends with no space, the substitution gives the words
    with one SPACE between them. *)
Lemma sub_spaces_words s :
  rstrip s = s ->
  sub_spaces_from true s = String.concat space_sep (words_of s)
  /\ (starts_nonspace s = true ->
      sub_spaces_from false s = String.concat space_sep (words_of s)).
Proof.
  induction s as [|c s IH]; [split; reflexivity|].
  simpl rstrip. destruct (isspace c) eqn:E; simpl "&&".
  - destruct (is_empty (rstrip s)) eqn:Es; [discriminate|].
    intros [= H]. destruct (IH H) as [IH1 _].
    simpl. rewrite E, (words_space _ _ E). split; [exact IH1|discriminate].
  - intros [= H]. destruct (IH H) as [IH1 IH2].
    assert (Hw : words_of (String c s) = wcons c (first_and_words s)
                 /\ sub_spaces_from false s
                    = String.concat space_sep
                        (match first_and_words s with
                         | [] => []
                         | w :: ws => if is_empty w then EmptyString :: ws else w :: ws
                         end)).
    { split.
      - rewrite words_first_and_words, first_and_words_cons, E.
        unfold first_and_words. pose proof (chunks_not_nil s) as Hn.
        destruct (chunks s) as [|w ws]; [congruence|]. simpl.
        rewrite filter_idem. reflexivity.
      - destruct s as [|d s']; [reflexivity|].
        destruct (isspace d) eqn:Ed.
        + rewrite first_and_words_cons, Ed. simpl is_empty. cbv iota.
          simpl sub_spaces_from. rewrite Ed.
          change (sub_spaces_from true s') with (sub_spaces_from true s') .
          assert (Hx : sub_spaces_from true (String d s') = sub_spaces_from true s')
            by (simpl; rewrite Ed; reflexivity).
          rewrite <- Hx, IH1, (words_space _ _ Ed).
          assert (Hne : words_of s' <> []).
          { intros Hnil. apply words_nil_iff, rstrip_empty_iff in Hnil.
            simpl in H. rewrite Ed, Hnil in H. simpl in H. discriminate. }
          destruct (words_of s') as [|w ws]; [congruence|]. reflexivity.
        + rewrite IH2 by (simpl; rewrite Ed; reflexivity).
          rewrite words_first_and_words, first_and_words_cons, Ed.
          pose proof (chunks_not_nil s') as Hn. unfold first_and_words.
          destruct (chunks s') as [|w ws]; [congruence|]. simpl.
          rewrite filter_idem. reflexivity. }
    destruct Hw as [Hw Hs]. simpl sub_spaces_from. rewrite E, Hw, Hs.
    assert (Hgoal : String c (String.concat space_sep
                      (match first_and_words s with
                       | [] => []
                       | w :: ws => if is_empty w then EmptyString :: ws else w :: ws
                       end))
                    = String.concat space_sep (wcons c (first_and_words s))).
    { unfold first_and_words. pose proof (chunks_not_nil s) as Hn.
      destruct (chunks s) as [|w ws]; [congruence|].
      destruct w as [|e w]; simpl.
      - destruct (List.filter nonempty ws); reflexivity.
      - destruct (List.filter nonempty ws); reflexivity. }
    split; [exact Hgoal|intros _; exact Hgoal].
Qed.

Lemma sub_spaces_strip_words s :
  sub_spaces (strip s) = String.concat space_sep (words_of s).
Proof.
  rewrite <- (words_strip s).
  apply (sub_spaces_words (strip s) (strip_rstripped s)), strip_starts_nonspace.
Qed.

Lemma rstrip_app a b :
  b <> EmptyString -> rstrip b = b -> rstrip (a ++ b) = a ++ b.
Proof.
  intros Hb Hr. induction a as [|c a IH]; [exact Hr|].
  change (String c a ++ b) with (String c (a ++ b)). simpl rstrip. rewrite IH.
  assert (Hne : is_empty (a ++ b) = false).
  { destruct a; [destruct b; [congruence|reflexivity]|reflexivity]. }
  rewrite Hne, andb_false_r. reflexivity.
Qed.

Lemma join_clean_stripped ls :
  Forall clean_line ls ->
  strip (join (String LF EmptyString) ls) = join (String LF EmptyString) ls.
Proof.
  intros H. unfold join. induction H as [|l ls (Hne & Hs & _) Hls IH]; [reflexivity|].
  assert (Hst : starts_nonspace l = true) by (rewrite <- Hs; apply strip_starts_nonspace).
  assert (Hr : rstrip l = l) by (rewrite <- Hs; apply strip_rstripped).
  destruct ls as [|l' ls]; [exact Hs|].
  change (String.concat (String LF EmptyString) (l :: l' :: ls)) with
    (l ++ String LF (String.concat (String LF EmptyString) (l' :: ls))).
  set (rest := String.concat (String LF EmptyString) (l' :: ls)) in *.
  assert (Hrest : rest <> EmptyString /\ rstrip rest = rest).
  { inversion Hls as [|? ? (Hne' & Hs' & _) _]; subst.
    assert (Hx : rstrip rest = rest).
    { rewrite <- IH at 2. unfold strip.
      rewrite <- IH at 1. apply strip_rstripped. }
    split; [|exact Hx].
    subst rest. destruct l' as [|c l']; [congruence|].
    destruct ls; discriminate. }
  destruct Hrest as [Hrne Hrr].
  apply strip_fixed.
  - destruct l as [|c l]; [congruence|]. exact Hst.
  - apply rstrip_app; [discriminate|]. simpl. rewrite Hrr.
    apply is_empty_false in Hrne. rewrite Hrne. reflexivity.
Qed.

(** X10: collapsing the text of the line-preserving mode gives the text of the
    whitespace-collapsing mode: the two modes return the same words in the
    same order, and differ in the separators only. *)
Theorem clean_text_modes_agree (text : cell) :
  sub_spaces (clean_text text true) = clean_text text false.
Proof.
  unfold clean_text. destruct (is_blank_or_nan text); [reflexivity|].
  set (u := unwrap_quotes (cell_str text)).
  change (clean_lines u) with (join (String LF EmptyString) (kept_lines u)).
  pose proof (kept_lines_clean u) as Hk.
  rewrite <- (join_clean_stripped _ Hk) at 1.
  rewrite !sub_spaces_strip_words. f_equal.
  rewrite (words_join LF _ eq_refl). unfold kept_lines.
  rewrite words_kept, (words_split LF _ eq_refl). apply words_sub_newlines.
Qed.

End Words.

(** X9: in the whitespace-collapsing mode the text returned for a value that
    is not blank is made of the words of its text, the wrapping quotes
    taken off, in their order, with one SPACE between them: no character
    of a word is changed, and nothing else is kept. *)
Theorem clean_text_words (text : cell) :
  is_blank_or_nan text = false ->
  clean_text text false
  = String.concat space_sep (words_of (unwrap_quotes (cell_str text))).
Proof.
  intros H. unfold clean_text. rewrite H.
  set (u := unwrap_quotes (cell_str text)).
  rewrite <- (words_strip u).
  apply (sub_spaces_words (PyStr.strip u) (strip_rstripped u)),
    strip_starts_nonspace.
Qed.

Lemma clean_text_words_witness :
  clean_text (CStr (quoted (String Unicode.LF " Pinot   Noir  "))) false = "Pinot Noir".
Proof.
  apply (clean_text_words (CStr (quoted (String Unicode.LF " Pinot   Noir  ")))).
  reflexivity.
Defined.

(** ** Tables in parts *)

Lemma map_result_app {A B} (f : A -> result B) l1 l2 :
  map_result f (l1 ++ l2) =
  match map_result f l1 with
  | Ok ys1 =>
      match map_result f l2 with
      | Ok ys2 => Ok (ys1 ++ ys2)%list
      | Raise e => Raise e
      end
  | Raise e => Raise e
  end.
Proof.
  induction l1 as [|x l1 IH]; simpl.
  - destruct (map_result f l2); reflexivity.
  - unfold mbind, result_bind. destruct (f x) as [y|]; [|reflexivity].
    rewrite IH. destruct (map_result f l1); [|reflexivity].
    destruct (map_result f l2); reflexivity.
Qed.

(** X17: rows are converted one by one: the list returned for a table is the
    list returned for its first rows followed by the list returned for the
    rows after them, under the same columns, and the first part that raises
    decides the exception. *)
Theorem convert_rows_app (cols : list cell) (rows1 rows2 : list (list cell)) :
  convert_csv_to_json {| columns := cols; rows := rows1 ++ rows2 |} =
  match convert_csv_to_json {| columns := cols; rows := rows1 |} with
  | Ok out1 =>
      match convert_csv_to_json {| columns := cols; rows := rows2 |} with
      | Ok out2 => Ok (out1 ++ out2)%list
      | Raise e => Raise e
      end
  | Raise e => Raise e
  end.
Proof.
  unfold convert_csv_to_json, build_header_mapping. simpl.
  rewrite !row_loop_spec, map_result_app.
  destruct (map_result _ rows1) as [ws1|]; [|reflexivity].
  destruct (map_result _ rows2) as [ws2|]; [|reflexivity].
  simpl. rewrite filter_app, map_app. reflexivity.
Qed.
